(** * MARV Robotics: GNSS extractors, plot composer and detail sections

    A shallow embedding of [marv_robotics/gnss.py] and
    [marv_robotics/detail.py].  A node is a Python generator that talks to
    the marv framework by yielding requests ([set_header], [pull], [push],
    [get_logger], [make_file]) and may stop with [marv.Abort] or with an
    uncaught Python exception.  Here a node is a function from its input
    streams to the list of the requests it issued that show on its output
    stream or in the log, together with the way it ended. *)

From Stdlib Require Import List String Ascii ZArith Bool Arith Lia.
From Stdlib Require Import Permutation Sorted DecimalString DecimalNat.
From Stdlib Require Import Reals Lra RNsatz.
From Stdlib Require Import PrimFloat.
Import ListNotations.

Local Close Scope R_scope.
Local Open Scope string_scope.
Local Open Scope list_scope.

(** ** The node protocol *)

Module Marv.

(** Uncaught Python exceptions that the modelled code can raise. *)
Inductive exn : Type :=
| TypeError
| IndexError
| AttributeError
| AssertionError
| OutOfRangeError
| ValueError
| OverflowError.

Inductive level : Type := Warn | Error.

Inductive log_arg : Type :=
| ArgInt (n : nat)
| ArgStr (s : string).

(** A file handed out by [marv.make_file]. *)
Record File : Type := mkFile { path : string; relpath : string }.

(** The requests of a node that show outside of it: the header, the
    pushed items, the log entries and the files made.  The requests that
    only hand something to the node are not recorded: a [pull] is the
    reading of the input list, and [get_logger] shows once the logger is
    written to, which is recorded where [log.warn] or [log.error] is
    called. *)
Inductive event (I : Type) : Type :=
| SetHeader (title : string)
| Push (item : I)
| Log (lvl : level) (fmt : string) (args : list log_arg)
| MakeFile (name : string).
Arguments SetHeader {I} title.
Arguments Push {I} item.
Arguments Log {I} lvl fmt args.
Arguments MakeFile {I} name.

(** How a generator ends: it returns, raises [marv.Abort], or raises
    another exception. *)
Inductive outcome (A : Type) : Type :=
| Done (a : A)
| Aborted
| Raised (e : exn).
Arguments Done {A} a.
Arguments Aborted {A}.
Arguments Raised {A} e.

(** A generator with output items of type [I]: the requests issued so
    far, and the outcome. *)
Definition Gen (I A : Type) : Type := (list (event I) * outcome A)%type.

Definition ret {I A} (a : A) : Gen I A := ([], Done a).

Definition bind {I A B} (m : Gen I A) (f : A -> Gen I B) : Gen I B :=
  match m with
  | (t, Done a) => let (t', o) := f a in (t ++ t', o)
  | (t, Aborted) => (t, Aborted)
  | (t, Raised e) => (t, Raised e)
  end.

Definition emit {I} (e : event I) : Gen I unit := ([e], Done tt).

Definition set_header {I} (title : string) : Gen I unit := emit (SetHeader title).
Definition push {I} (item : I) : Gen I unit := emit (Push item).
Definition log_warn {I} (fmt : string) (args : list log_arg) : Gen I unit :=
  emit (Log Warn fmt args).
Definition log_error {I} (fmt : string) (args : list log_arg) : Gen I unit :=
  emit (Log Error fmt args).
Definition abort {I A} : Gen I A := ([], Aborted).
Definition raise {I A} (e : exn) : Gen I A := ([], Raised e).

(** [marv.make_file(name)]: the framework allocates the file; [store]
    stands for its allocation of path and relative path. *)
Definition make_file {I} (store : string -> File) (name : string) : Gen I File :=
  ([MakeFile name], Done (store name)).

Definition trace {I A} (g : Gen I A) : list (event I) := fst g.
Definition result {I A} (g : Gen I A) : outcome A := snd g.

(** The items pushed, the warnings logged and the errors logged, in order. *)
Definition pushed {I} (t : list (event I)) : list I :=
  flat_map (fun e => match e with Push x => [x] | _ => [] end) t.

Definition warnings {I} (t : list (event I)) : list (string * list log_arg) :=
  flat_map (fun e => match e with Log Warn f a => [(f, a)] | _ => [] end) t.

Definition errors {I} (t : list (event I)) : list (string * list log_arg) :=
  flat_map (fun e => match e with Log Error f a => [(f, a)] | _ => [] end) t.

Definition headers {I} (t : list (event I)) : list string :=
  flat_map (fun e => match e with SetHeader s => [s] | _ => [] end) t.

Definition files_made {I} (t : list (event I)) : list string :=
  flat_map (fun e => match e with MakeFile s => [s] | _ => [] end) t.

(** A stream of raw messages read from a bag. *)
Record Stream (P : Type) : Type := mkStream {
  topic : string;
  msg_type : string;
  messages : list P
}.
Arguments mkStream {P} topic msg_type messages.
Arguments topic {P} s.
Arguments msg_type {P} s.
Arguments messages {P} s.

(** The output stream of a node as a consumer holds it: the header title
    and the items still to be pulled. *)
Record Handle (M : Type) : Type := mkHandle {
  title : string;
  msgs : list M
}.
Arguments mkHandle {M} title msgs.
Arguments title {M} h.
Arguments msgs {M} h.

(** [yield marv.pull(h)] on a fresh handle: the first item, or [None] at
    the end marker. *)
Definition pull {M} (h : Handle M) : option M := hd_error (msgs h).

(** [yield marv.pull_all] on several handles: one pull on each. *)
Definition pull_all {M} (hs : list (Handle M)) : list (option M) :=
  List.map pull hs.

End Marv.

Import Marv.

Declare Scope gen_scope.
Delimit Scope gen_scope with gen.
Notation "x <- c1 ;; c2" := (bind c1 (fun x => c2))
  (at level 61, c1 at next level, right associativity) : gen_scope.
Notation "c1 ;; c2" := (bind c1 (fun _ => c2))
  (at level 61, right associativity) : gen_scope.
Local Open Scope gen_scope.

(** ** Floating-point numbers

    The operations on [float]/[numpy.float64] values that the code uses.
    The code is written once over this interface; it is run on binary64
    values and reasoned about over the real numbers. *)

Class Float64 (F : Type) : Type := {
  of_int : Z -> F;
  add : F -> F -> F;
  sub : F -> F -> F;
  mul : F -> F -> F;
  sqrt : F -> F;
  isnan : F -> bool;
  isfinite : F -> bool
}.

(** An integer as a binary64 value; exact below 2^53, which covers the
    integer literals of the code. *)
Fixpoint float_of_pos (p : positive) : float :=
  match p with
  | xH => 1%float
  | xO q => PrimFloat.mul 2%float (float_of_pos q)
  | xI q => PrimFloat.add (PrimFloat.mul 2%float (float_of_pos q)) 1%float
  end.

Definition float_of_Z (z : Z) : float :=
  match z with
  | Z0 => 0%float
  | Zpos p => float_of_pos p
  | Zneg p => PrimFloat.opp (float_of_pos p)
  end.

#[export] Instance binary64 : Float64 float := {
  of_int := float_of_Z;
  add := PrimFloat.add;
  sub := PrimFloat.sub;
  mul := PrimFloat.mul;
  sqrt := PrimFloat.sqrt;
  isnan := PrimFloat.is_nan;
  isfinite := PrimFloat.is_finite
}.

#[export] Instance real_numbers : Float64 R := {
  of_int := IZR;
  add := Rplus;
  sub := Rminus;
  mul := Rmult;
  sqrt := R_sqrt.sqrt;
  isnan := fun _ => false;
  isfinite := fun _ => true
}.

(** The two-argument arctangent on the real numbers, by quadrant. *)
Definition Ratan2 (y x : R) : R :=
  if Rlt_dec 0 x then atan (y / x)
  else if Rlt_dec x 0
       then (if Rle_dec 0 y then atan (y / x) + PI else atan (y / x) - PI)%R
       else if Rlt_dec 0 y then (PI / 2)%R
            else if Rlt_dec y 0 then (- PI / 2)%R else 0%R.

Declare Scope f64_scope.
Delimit Scope f64_scope with f64.
Infix "+" := add : f64_scope.
Infix "-" := sub : f64_scope.
Infix "*" := mul : f64_scope.

(** ** gnss.py *)

Module Gnss.

(** ROS message records, as [deserialize] fills them in. *)

Record Time : Type := mkTime { secs : Z; nsecs : Z }.
Record Header : Type := mkHeader { stamp : Time }.

Module Quaternion.
Record t (F : Type) : Type := mk { x : F; y : F; z : F; w : F }.
Arguments mk {F} x y z w.
Arguments x {F} _.
Arguments y {F} _.
Arguments z {F} _.
Arguments w {F} _.
End Quaternion.

Module NavSatStatus.
Record t : Type := mk { status : Z; service : Z }.
End NavSatStatus.

(** A fixed-size [float64[9]] array. *)
Record float64x9 (F : Type) : Type := mkArray9 {
  at0 : F; at1 : F; at2 : F; at3 : F; at4 : F; at5 : F; at6 : F; at7 : F; at8 : F
}.
Arguments mkArray9 {F} at0 at1 at2 at3 at4 at5 at6 at7 at8.
Arguments at0 {F} _.

Module NavSatFix.
(** [status] is [None] when the message object has no such attribute. *)
Record t (F : Type) : Type := mk {
  header : Header;
  status : option NavSatStatus.t;
  latitude : F;
  longitude : F;
  altitude : F;
  position_covariance : float64x9 F
}.
Arguments mk {F} header status latitude longitude altitude position_covariance.
Arguments header {F} _.
Arguments status {F} _.
Arguments latitude {F} _.
Arguments longitude {F} _.
Arguments altitude {F} _.
Arguments position_covariance {F} _.
End NavSatFix.

Module Imu.
Record t (F : Type) : Type := mk {
  header : Header;
  orientation : Quaternion.t F
}.
Arguments mk {F} header orientation.
Arguments header {F} _.
Arguments orientation {F} _.
End Imu.

Module NavSatOrientation.
Record t (F : Type) : Type := mk {
  header : Header;
  yaw : F
}.
Arguments mk {F} header yaw.
Arguments header {F} _.
Arguments yaw {F} _.
End NavSatOrientation.

(** A message class as [get_message_class] returns it: calling it gives
    a message object, whose [deserialize] reads the fields from the raw
    data of a message. *)
Record msg_class (P R : Type) : Type := mkClass { deserialize : P -> R }.
Arguments mkClass {P R} deserialize.
Arguments deserialize {P R} _ _.

(** [rosmsg = pytype()]: calling [None] is a [TypeError]. *)
Definition instantiate {I P R} (pytype : option (msg_class P R)) : Gen I (msg_class P R) :=
  match pytype with
  | Some c => ret c
  | None => raise TypeError
  end.

(** The item every extractor pushes: [{'values': rows}]. *)
Record Aggregate (Row : Type) : Type := mkAggregate { values : list Row }.
Arguments mkAggregate {Row} values.
Arguments values {Row} _.

(** *** yaw_angle *)

Section YawAngle.
Context {F : Type} {ops : Float64 F}.
(** [numpy.arctan2]. *)
Variable arctan2 : F -> F -> F.

Local Open Scope f64_scope.

(** The matrix [rot] after its nine assignments, row by row. *)
Definition rot (frame : Quaternion.t F) : list (list F) :=
  let q1 := Quaternion.x frame in
  let q2 := Quaternion.y frame in
  let q3 := Quaternion.z frame in
  let q4 := Quaternion.w frame in
  [ [ of_int 1 - of_int 2 * q2 * q2 - of_int 2 * q3 * q3;
      of_int 2 * (q1 * q2 - q3 * q4);
      of_int 2 * (q1 * q3 + q2 * q4) ];
    [ of_int 2 * (q1 * q2 + q3 * q4);
      of_int 1 - of_int 2 * q1 * q1 - of_int 2 * q3 * q3;
      of_int 2 * (q2 * q3 - q1 * q4) ];
    [ of_int 2 * (q1 * q3 - q2 * q4);
      of_int 2 * (q1 * q4 + q2 * q3);
      of_int 1 - of_int 2 * q1 * q1 - of_int 2 * q2 * q2 ] ].

(** [numpy.dot] of a matrix and a vector: one sum of products per row. *)
Definition dot_row (row v : list F) : F :=
  fold_left (fun acc p => acc + fst p * snd p) (combine row v) (of_int 0).

Definition dot (m : list (list F)) (v : list F) : list F :=
  List.map (fun row => dot_row row v) m.

Definition yaw_angle (frame : Quaternion.t F) : F :=
  let vec := dot (rot frame) [of_int 1; of_int 0; of_int 0] in
  arctan2 (nth 1 vec (of_int 0)) (nth 0 vec (of_int 0)).
End YawAngle.

(** *** positions *)

Module Positions.
(** One row of the aggregate: [[stamp, latitude, longitude, altitude,
    e, n, u, status, sqrt(covariance[0])]]. *)
Record Row (F : Type) : Type := mkRow {
  r_stamp : F;
  r_latitude : F;
  r_longitude : F;
  r_altitude : F;
  r_e : F;
  r_n : F;
  r_u : F;
  r_status : Z;
  r_sigma : F
}.
Arguments mkRow {F} r_stamp r_latitude r_longitude r_altitude r_e r_n r_u r_status r_sigma.
Arguments r_stamp {F} _.
Arguments r_latitude {F} _.
Arguments r_longitude {F} _.
Arguments r_altitude {F} _.
Arguments r_e {F} _.
Arguments r_n {F} _.
Arguments r_u {F} _.
Arguments r_status {F} _.
Arguments r_sigma {F} _.

(** The local variables of the generator. *)
Record state (F : Type) : Type := mkState {
  erroneous : nat;
  e_offset : option F;
  n_offset : option F;
  u_offset : option F;
  positions : list (Row F)
}.
Arguments mkState {F} erroneous e_offset n_offset u_offset positions.
Arguments erroneous {F} _.
Arguments e_offset {F} _.
Arguments n_offset {F} _.
Arguments u_offset {F} _.
Arguments positions {F} _.
End Positions.

Section PositionsNode.
Context {F : Type} {ops : Float64 F}.
(** The raw data of a bag message. *)
Variable P : Type.
(** [roslib.message.get_message_class]: [None] for an unknown type. *)
Variable get_message_class : string -> option (msg_class P (NavSatFix.t F)).
(** [stamp.to_sec()]. *)
Variable to_sec : Time -> F.
(** [utm.from_latlon(latitude, longitude)]: easting, northing, zone
    number and zone letter; [None] when it raises [OutOfRangeError]. *)
Variable from_latlon : forall (latitude longitude : F), option (F * F * Z * string).

Let I : Type := Aggregate (Positions.Row F).

Definition positions_init : Positions.state F := Positions.mkState 0 None None None [].

(** [x - offset] where [offset] may still be [None]. *)
Definition minus (a : F) (offset : option F) : Gen I F :=
  match offset with
  | Some b => ret (sub a b)
  | None => raise TypeError
  end.

Definition hasattr_status (rosmsg : NavSatFix.t F) : bool :=
  match NavSatFix.status rosmsg with Some _ => true | None => false end.

(** The test of the [if] that skips a message. *)
Definition is_erroneous (rosmsg : NavSatFix.t F) : bool :=
  negb (hasattr_status rosmsg)
  || isnan (NavSatFix.longitude rosmsg)
  || isnan (NavSatFix.latitude rosmsg)
  || isnan (NavSatFix.altitude rosmsg).

(** One turn of the [while] loop for a message that was pulled. *)
Definition positions_body (pytype : msg_class P (NavSatFix.t F))
  (st : Positions.state F) (msg : P) : Gen I (Positions.state F) :=
  let rosmsg := deserialize pytype msg in
  if is_erroneous rosmsg then
    ret (Positions.mkState (S (Positions.erroneous st))
                           (Positions.e_offset st) (Positions.n_offset st)
                           (Positions.u_offset st) (Positions.positions st))
  else
    match from_latlon (NavSatFix.longitude rosmsg) (NavSatFix.latitude rosmsg) with
    | None => raise OutOfRangeError
    | Some (e, n, _, _) =>
      let st :=
        match Positions.e_offset st with
        | None =>
          Positions.mkState (Positions.erroneous st) (Some e) (Some n)
                            (Some (NavSatFix.altitude rosmsg)) (Positions.positions st)
        | Some _ => st
        end in
      e <- minus e (Positions.e_offset st) ;;
      n <- minus n (Positions.n_offset st) ;;
      u <- minus (NavSatFix.altitude rosmsg) (Positions.u_offset st) ;;
      status <- match NavSatFix.status rosmsg with
                | Some s => ret (NavSatStatus.status s)
                | None => raise AttributeError
                end ;;
      ret (Positions.mkState
             (Positions.erroneous st)
             (Positions.e_offset st) (Positions.n_offset st) (Positions.u_offset st)
             (Positions.positions st ++
              [Positions.mkRow (to_sec (stamp (NavSatFix.header rosmsg)))
                               (NavSatFix.latitude rosmsg)
                               (NavSatFix.longitude rosmsg)
                               (NavSatFix.altitude rosmsg)
                               e n u status
                               (sqrt (at0 (NavSatFix.position_covariance rosmsg)))]))
    end.

(** The [while True] loop: it pulls until the end marker. *)
Fixpoint positions_loop (pytype : msg_class P (NavSatFix.t F)) (pending : list P)
  (st : Positions.state F) : Gen I (Positions.state F) :=
  match pending with
  | [] => ret st
  | msg :: rest => st' <- positions_body pytype st msg ;; positions_loop pytype rest st'
  end.

Definition positions (stream : Stream P) : Gen I unit :=
  set_header (topic stream) ;;
  rosmsg <- instantiate (get_message_class (msg_type stream)) ;;
  st <- positions_loop rosmsg (messages stream) positions_init ;;
  (if (0 <? Positions.erroneous st)%nat
   then log_warn "skipped %d erroneous messages" [ArgInt (Positions.erroneous st)]
   else ret tt) ;;
  push (mkAggregate (Positions.positions st)).
End PositionsNode.

(** *** imus *)

Module Imus.
(** One row of the aggregate: [[stamp, yaw]]. *)
Record Row (F : Type) : Type := mkRow { r_stamp : F; r_yaw : F }.
Arguments mkRow {F} r_stamp r_yaw.
Arguments r_stamp {F} _.
Arguments r_yaw {F} _.

Record state (F : Type) : Type := mkState {
  erroneous : nat;
  imus : list (Row F)
}.
Arguments mkState {F} erroneous imus.
Arguments erroneous {F} _.
Arguments imus {F} _.
End Imus.

Section ImusNode.
Context {F : Type} {ops : Float64 F}.
Variable P : Type.
Variable get_message_class : string -> option (msg_class P (Imu.t F)).
Variable to_sec : Time -> F.
Variable arctan2 : F -> F -> F.

Let I : Type := Aggregate (Imus.Row F).

Definition imus_init : Imus.state F := Imus.mkState 0 [].

Definition imus_body (pytype : msg_class P (Imu.t F)) (st : Imus.state F) (msg : P)
  : Gen I (Imus.state F) :=
  let rosmsg := deserialize pytype msg in
  if isnan (Quaternion.x (Imu.orientation rosmsg)) then
    ret (Imus.mkState (S (Imus.erroneous st)) (Imus.imus st))
  else
    ret (Imus.mkState (Imus.erroneous st)
                 (Imus.imus st ++ [Imus.mkRow (to_sec (stamp (Imu.header rosmsg)))
                                    (yaw_angle arctan2 (Imu.orientation rosmsg))])).

Fixpoint imus_loop (pytype : msg_class P (Imu.t F)) (pending : list P) (st : Imus.state F)
  : Gen I (Imus.state F) :=
  match pending with
  | [] => ret st
  | msg :: rest => st' <- imus_body pytype st msg ;; imus_loop pytype rest st'
  end.

Definition imus (stream : Stream P) : Gen I unit :=
  set_header (topic stream) ;;
  rosmsg <- instantiate (get_message_class (msg_type stream)) ;;
  st <- imus_loop rosmsg (messages stream) imus_init ;;
  (if (0 <? Imus.erroneous st)%nat
   then log_warn "skipped %d erroneous messages" [ArgInt (Imus.erroneous st)]
   else ret tt) ;;
  push (mkAggregate (Imus.imus st)).
End ImusNode.

(** *** navsatorients *)

Module NavSatOrients.
(** The rows are [[stamp, yaw]], as for [imus]. *)
Record state (F : Type) : Type := mkState {
  erroneous : nat;
  navsatorients : list (Imus.Row F)
}.
Arguments mkState {F} erroneous navsatorients.
Arguments erroneous {F} _.
Arguments navsatorients {F} _.
End NavSatOrients.

Section NavSatOrientsNode.
Context {F : Type} {ops : Float64 F}.
Variable P : Type.
Variable get_message_class : string -> option (msg_class P (NavSatOrientation.t F)).
Variable to_sec : Time -> F.

Let I : Type := Aggregate (Imus.Row F).

Definition navsatorients_init : NavSatOrients.state F := NavSatOrients.mkState 0 [].

Definition navsatorients_body (pytype : msg_class P (NavSatOrientation.t F))
  (st : NavSatOrients.state F) (msg : P) : Gen I (NavSatOrients.state F) :=
  let rosmsg := deserialize pytype msg in
  if isnan (NavSatOrientation.yaw rosmsg) then
    ret (NavSatOrients.mkState (S (NavSatOrients.erroneous st))
                               (NavSatOrients.navsatorients st))
  else
    ret (NavSatOrients.mkState (NavSatOrients.erroneous st)
                 (NavSatOrients.navsatorients st ++
                  [Imus.mkRow (to_sec (stamp (NavSatOrientation.header rosmsg)))
                              (NavSatOrientation.yaw rosmsg)])).

Fixpoint navsatorients_loop (pytype : msg_class P (NavSatOrientation.t F)) (pending : list P)
  (st : NavSatOrients.state F) : Gen I (NavSatOrients.state F) :=
  match pending with
  | [] => ret st
  | msg :: rest => st' <- navsatorients_body pytype st msg ;; navsatorients_loop pytype rest st'
  end.

(** [log = yield marv.get_logger()] opens the source function; the
    logger shows in the run where [log.error] and [log.warn] are called. *)
Definition navsatorients (stream : Stream P) : Gen I unit :=
  set_header (topic stream) ;;
  match get_message_class (msg_type stream) with
  | None =>
    log_error "Message definition for %r not available" [ArgStr (msg_type stream)] ;;
    abort
  | Some rosmsg =>
    st <- navsatorients_loop rosmsg (messages stream) navsatorients_init ;;
    (if (0 <? NavSatOrients.erroneous st)%nat
     then log_warn "skipped %d erroneous messages" [ArgInt (NavSatOrients.erroneous st)]
     else ret tt) ;;
    push (mkAggregate (NavSatOrients.navsatorients st))
  end.
End NavSatOrientsNode.

(** *** orientations *)

Section Orientations.
(** The items of both inputs: the output streams of the [imus] and of the
    [navsatorients] instances. *)
Variable S : Type.

(** [while True: tmp = yield marv.pull(input); if tmp is None: break;
    yield marv.push(tmp)]. *)
Fixpoint forward (pending : list S) : Gen S unit :=
  match pending with
  | [] => ret tt
  | tmp :: rest => push tmp ;; forward rest
  end.

Definition orientations (imus navsatorients : list S) : Gen S unit :=
  forward imus ;;
  forward navsatorients.
End Orientations.

(** *** gnss_plots *)

(** [x.replace(old, new)] for single characters. *)
Fixpoint replace (old new : ascii) (x : string) : string :=
  match x with
  | EmptyString => EmptyString
  | String c rest =>
    String (if Ascii.eqb c old then new else c) (replace old new rest)
  end.

(** The slice [x[1:]]. *)
Definition drop_first (x : string) : string :=
  match x with
  | EmptyString => EmptyString
  | String _ rest => rest
  end.

(** ['__'.join(x.replace('/', ':')[1:] for x in [gtitle, otitle]) + '.jpg']. *)
Definition artifact_name (gtitle otitle : string) : string :=
  String.concat "__" (List.map (fun x => drop_first (replace "/" ":" x)) [gtitle; otitle])
  ++ ".jpg".

(** ['{} with {}'.format(gtitle, otitle)]. *)
Definition plot_title (gtitle otitle : string) : string :=
  gtitle ++ " with " ++ otitle.

Section GnssPlots.
Context {F : Type} {ops : Float64 F}.
Variable store : string -> File.

(** [datetime.fromtimestamp(x)]: the exception it raises on a stamp it
    cannot convert ([ValueError] or [OverflowError]), [None] when it
    returns the date. *)
Variable fromtimestamp : F -> option exn.

Let PRow : Type := Positions.Row F.
Let ORow : Type := Imus.Row F.

(** [msg['values']] on what a pull returned: subscripting [None] is a
    [TypeError]. *)
Definition subscript_values {Row : Type} (msg : option (Aggregate Row))
  : Gen File (list Row) :=
  match msg with
  | Some m => ret (values m)
  | None => raise TypeError
  end.

(** [gps = np.array(gps); gps = gps[np.isfinite(gps[:, 1])]]: the array of
    an empty list has one dimension, and indexing its second one is an
    [IndexError]. *)
Definition mask_finite (gps : list PRow) : Gen File (list PRow) :=
  match gps with
  | [] => raise IndexError
  | _ :: _ => ret (filter (fun row => isfinite (Positions.r_latitude row)) gps)
  end.

(** [[datetime.fromtimestamp(x) for x in stamps]]: the stamps are
    converted in order, and the first exception ends the comprehension. *)
Fixpoint fromtimestamps (stamps : list F) : Gen File unit :=
  match stamps with
  | [] => ret tt
  | x :: rest =>
    match fromtimestamp x with
    | Some e => raise e
    | None => fromtimestamps rest
    end
  end.

(** The inputs are the streams of output streams of [positions] and of
    [orientations]; [pull_all] takes the first of each.  Of the plotting
    code the column index of the mask and the conversions of the stamps
    are outside the [try] and end the run when they raise; the calls on
    the figure and its axes draw, issue no request and are taken to
    return, and an exception of [savefig] is swallowed by the bare
    [except].  The final
    [yield plotfile] hands the file to the framework as the output item. *)
Definition gnss_plots (gps : list (Handle (Aggregate PRow)))
  (orientation : list (Handle (Aggregate ORow))) : Gen File unit :=
  let gps := hd_error gps in
  let orientation := hd_error orientation in
  match gps with
  | None => log_error "No gps messages" [] ;; abort
  | Some gps =>
    let gtitle := title gps in
    gps <- subscript_values (pull gps) ;;
    o <- match orientation with
         | Some stream =>
           match pull stream with
           | Some msg => ret (title stream, values msg)
           | None => log_warn "No orientations found" [] ;; ret ("none", [])
           end
         | None => log_warn "No orientations found" [] ;; ret ("none", [])
         end ;;
    let otitle := fst o in
    let orientation := snd o in
    let name := artifact_name gtitle otitle in
    let title := plot_title gtitle otitle in
    set_header title ;;
    plotfile <- make_file store name ;;
    gps <- mask_finite gps ;;
    match orientation with
    | [] => ret tt
    | _ :: _ => fromtimestamps (List.map Imus.r_stamp orientation)
    end ;;
    fromtimestamps (List.map Positions.r_stamp gps) ;;
    fromtimestamps (List.map Positions.r_stamp gps) ;;
    fromtimestamps (List.map Positions.r_stamp gps) ;;
    push plotfile
  end.
End GnssPlots.

End Gnss.

(** ** The framework around the nodes *)

Module Framework.

(** Modelled from the spec: the marv scheduler is not part of this
    package.  The output stream of a node run carries the header title
    and the pushed items; a run that ends with Abort (or with an
    exception) yields no output stream. *)
Definition output_stream {I : Type} (run : Gen I unit) : option (Handle I) :=
  match result run with
  | Done _ => Some (mkHandle (hd "" (headers (trace run))) (pushed (trace run)))
  | Aborted => None
  | Raised _ => None
  end.

(** Modelled from the spec: a [foreach] input instantiates the node once
    per element of the collection; the instances share no state, and the
    consumer of the node sees the output streams that exist, in order. *)
Definition foreach {X I : Type} (node : X -> Gen I unit) (collection : list X)
  : list (Handle I) :=
  flat_map (fun x => match output_stream (node x) with
                     | Some h => [h]
                     | None => []
                     end) collection.

End Framework.

(** ** detail.py *)

Module Detail.

(** Cells, columns and rows of a table widget. *)
Inductive Cell : Type :=
| CellText (text : string)
| CellUint64 (n : N).

Record Column : Type := mkColumn { c_title : string; c_align : option string }.
Record TableRow : Type := mkTableRow { id : nat; cells : list Cell }.

Inductive WidgetBody : Type :=
| Image (src : string)
| Gallery (images : list string)
| Video (src : string)
| Table (columns : list Column) (rows : list TableRow)
| MapPartial (ref : string).

(** A widget dictionary; [w_title] is [None] when it has no ['title'] key. *)
Record Widget : Type := mkWidget { w_title : option string; w_body : WidgetBody }.

(** A section dictionary.  An entry of [widgets] is [None] where the list
    holds Python's [None]. *)
Record Section : Type := mkSection { s_title : string; widgets : list (option Widget) }.

(** [sorted(xs, key=lambda x: x.title)]: a stable sort, strings compared
    character by character. *)
Fixpoint insert_by_title {M : Type} (h : Handle M) (sorted_tail : list (Handle M))
  : list (Handle M) :=
  match sorted_tail with
  | [] => [h]
  | h' :: rest =>
    if String.leb (title h) (title h') then h :: h' :: rest
    else h' :: insert_by_title h rest
  end.

Definition sorted_by_title {M : Type} (xs : list (Handle M)) : list (Handle M) :=
  fold_right insert_by_title [] xs.

(** [assert len(set(x['title'] for x in widgets)) == len(widgets)] for
    widgets that all have a title. *)
Definition assert_unique_titles {I : Type} (titles : list string) : Gen I unit :=
  if (List.length (nodup string_dec titles) =? List.length titles)%nat
  then ret tt
  else raise AssertionError.

(** *** gnss_section *)

(** The [for plot in plots] loop; a file that was pulled is true, [None]
    is false. *)
Fixpoint gnss_widgets (plots : list (Handle File)) (widgets : list (string * string))
  : list (string * string) :=
  match plots with
  | [] => widgets
  | plot :: rest =>
    match pull plot with
    | Some plotfile => gnss_widgets rest (widgets ++ [(title plot, relpath plotfile)])
    | None => gnss_widgets rest widgets
    end
  end.

(** A widget is kept as the pair of its title and its source until it is
    pushed. *)
Definition image_widget (w : string * string) : option Widget :=
  Some (mkWidget (Some (fst w)) (Image (snd w))).

Definition gnss_section (plots : Handle File) (title : string) : Gen Section unit :=
  let plots := [plots] in
  let widgets := gnss_widgets plots [] in
  assert_unique_titles (List.map fst widgets) ;;
  match widgets with
  | [] => ret tt
  | _ :: _ => push (mkSection title (List.map image_widget widgets))
  end.

(** *** galleries and images_section *)

Definition galleries (stream : Handle File) : Gen Widget unit :=
  set_header (title stream) ;;
  let images := List.map relpath (msgs stream) in
  push (mkWidget (Some (title stream)) (Gallery images)).

Definition images_section (galleries : list (Handle Widget)) (title : string)
  : Gen Section unit :=
  let galleries := sorted_by_title galleries in
  let widgets := pull_all galleries in
  match widgets with
  | [] => ret tt
  | _ :: _ => push (mkSection title widgets)
  end.

(** *** topics_section *)

Record Topic : Type := mkTopic { name : string; t_msg_type : string; msg_count : N }.
Record Bagmeta : Type := mkBagmeta { topics : list Topic }.

(** [enumerate(bagmeta.topics)] turned into rows, counting from [idx]. *)
Fixpoint topic_rows (idx : nat) (ts : list Topic) : list TableRow :=
  match ts with
  | [] => []
  | topic :: rest =>
    mkTableRow idx [CellText (name topic); CellText (t_msg_type topic);
                    CellUint64 (msg_count topic)]
    :: topic_rows (S idx) rest
  end.

Definition topics_section {D : Type} (bagmeta : Handle Bagmeta) (dataset : Handle D)
  (title : string) : Gen Section unit :=
  let dataset := pull dataset in
  let bagmeta := pull bagmeta in
  let columns := [mkColumn "Topic" None; mkColumn "Message type" None;
                  mkColumn "Message count" (Some "right")] in
  match bagmeta with
  | None => raise AttributeError
  | Some bagmeta =>
    let rows := topic_rows 0 (topics bagmeta) in
    let widgets := [Some (mkWidget None (Table columns rows))] in
    push (mkSection title widgets)
  end.

(** *** trajectory_section *)

Section Trajectory.
(** The geojson object and its truth value. *)
Variable G : Type.
Variable truthy : G -> bool.
Variable store : string -> File.

(** The map dictionary is dumped into the file that was made; that is no
    request to the framework. *)
Definition trajectory_section (geojson : Handle G) (title : string) : Gen Section unit :=
  match pull geojson with
  | None => abort
  | Some geojson =>
    if negb (truthy geojson) then abort
    else
      jsonfile <- make_file store "data.json" ;;
      push (mkSection title
              [Some (mkWidget None (MapPartial ("marv-partial:" ++ relpath jsonfile)))])
  end.
End Trajectory.

(** *** video_section *)

(** The list comprehension over [zip(videos, videofiles)]; the attribute
    [relpath] of [None] is an [AttributeError]. *)
Fixpoint video_widgets (pairs : list (Handle File * option File))
  : Gen Section (list (string * string)) :=
  match pairs with
  | [] => ret []
  | (video, videofile) :: rest =>
    match videofile with
    | None => raise AttributeError
    | Some f =>
      ws <- video_widgets rest ;;
      ret ((title video, relpath f) :: ws)
    end
  end.

Definition video_widget (w : string * string) : option Widget :=
  Some (mkWidget (Some (fst w)) (Video (snd w))).

Definition video_section (videos : list (Handle File)) (title : string)
  : Gen Section unit :=
  let videos := sorted_by_title videos in
  match videos with
  | [] => abort
  | _ :: _ =>
    let videofiles := pull_all videos in
    widgets <- video_widgets (combine videos videofiles) ;;
    assert_unique_titles (List.map fst widgets) ;;
    match widgets with
    | [] => ret tt
    | _ :: _ => push (mkSection title (List.map video_widget widgets))
    end
  end.

End Detail.

(** ** Reference definitions

    What the specification compares the code with. *)

Module Reference.

Local Open Scope R_scope.

(** The Hamilton product of two quaternions and the conjugate. *)
Definition qmul (a b : Gnss.Quaternion.t R) : Gnss.Quaternion.t R :=
  let (ax, ay, az, aw) := a in
  let (bx, by_, bz, bw) := b in
  Gnss.Quaternion.mk
    (aw * bx + ax * bw + ay * bz - az * by_)
    (aw * by_ - ax * bz + ay * bw + az * bx)
    (aw * bz + ax * by_ - ay * bx + az * bw)
    (aw * bw - ax * bx - ay * by_ - az * bz).

Definition qconj (a : Gnss.Quaternion.t R) : Gnss.Quaternion.t R :=
  let (ax, ay, az, aw) := a in Gnss.Quaternion.mk (- ax) (- ay) (- az) aw.

Definition qnorm2 (a : Gnss.Quaternion.t R) : R :=
  let (ax, ay, az, aw) := a in ax * ax + ay * ay + az * az + aw * aw.

(** The rotation a unit quaternion [q] stands for: [v] goes to the vector
    part of [q v q*]. *)
Definition rotate (q : Gnss.Quaternion.t R) (v : list R) : list R :=
  match v with
  | [v1; v2; v3] =>
    let (rx, ry, rz, _) := qmul (qmul q (Gnss.Quaternion.mk v1 v2 v3 0)) (qconj q) in
    [rx; ry; rz]
  | _ => []
  end.

(** The quaternion of a rotation by [theta] about the vertical axis. *)
Definition yaw_quaternion (theta : R) : Gnss.Quaternion.t R :=
  Gnss.Quaternion.mk 0 0 (sin (theta / 2)) (cos (theta / 2)).

End Reference.

(** ** What the extractors are expected to record *)

Module Expected.

Import Gnss.

(** The warning logged at the end of a stream with [n] skipped messages. *)
Definition skip_warning {I : Type} (n : nat) : list (event I) :=
  if (0 <? n)%nat then [Log Warn "skipped %d erroneous messages" [ArgInt n]] else [].

Section Fixes.
Context {F : Type} {ops : Float64 F}.
Variable P : Type.
Variable to_sec : Time -> F.
Variable cls : msg_class P (NavSatFix.t F).

(** A fix is skipped when it has no status or when its latitude,
    longitude or altitude is not a number. *)
Definition skipped_fix (r : NavSatFix.t F) : bool :=
  match NavSatFix.status r with
  | None => true
  | Some _ =>
    isnan (NavSatFix.latitude r) || isnan (NavSatFix.longitude r)
    || isnan (NavSatFix.altitude r)
  end.

Definition valid_fixes (msgs : list P) : list (NavSatFix.t F) :=
  filter (fun r => negb (skipped_fix r)) (List.map (deserialize cls) msgs).

Definition skipped_fixes (msgs : list P) : nat :=
  List.length (filter skipped_fix (List.map (deserialize cls) msgs)).

(** The columns of a row that are copied from the fix. *)
Definition row_of (r : NavSatFix.t F) (row : Positions.Row F) : Prop :=
  Positions.r_stamp row = to_sec (stamp (NavSatFix.header r))
  /\ Positions.r_latitude row = NavSatFix.latitude r
  /\ Positions.r_longitude row = NavSatFix.longitude r
  /\ Positions.r_altitude row = NavSatFix.altitude r
  /\ Some (Positions.r_status row) = option_map NavSatStatus.status (NavSatFix.status r)
  /\ Positions.r_sigma row = sqrt (at0 (NavSatFix.position_covariance r)).
End Fixes.

Section Orientations.
Context {F : Type} {ops : Float64 F}.
Variable P : Type.
Variable to_sec : Time -> F.
Variable arctan2 : F -> F -> F.

Definition valid_imus (cls : msg_class P (Imu.t F)) (msgs : list P) : list (Imu.t F) :=
  filter (fun r => negb (isnan (Quaternion.x (Imu.orientation r))))
         (List.map (deserialize cls) msgs).

Definition skipped_imus (cls : msg_class P (Imu.t F)) (msgs : list P) : nat :=
  List.length (filter (fun r => isnan (Quaternion.x (Imu.orientation r)))
                      (List.map (deserialize cls) msgs)).

Definition imu_row (r : Imu.t F) : Imus.Row F :=
  Imus.mkRow (to_sec (stamp (Imu.header r))) (yaw_angle arctan2 (Imu.orientation r)).

Definition valid_orients (cls : msg_class P (NavSatOrientation.t F)) (msgs : list P)
  : list (NavSatOrientation.t F) :=
  filter (fun r => negb (isnan (NavSatOrientation.yaw r)))
         (List.map (deserialize cls) msgs).

Definition skipped_orients (cls : msg_class P (NavSatOrientation.t F)) (msgs : list P)
  : nat :=
  List.length (filter (fun r => isnan (NavSatOrientation.yaw r))
                      (List.map (deserialize cls) msgs)).

Definition orient_row (r : NavSatOrientation.t F) : Imus.Row F :=
  Imus.mkRow (to_sec (stamp (NavSatOrientation.header r))) (NavSatOrientation.yaw r).
End Orientations.

(** The orientation title the plot composer ends up with: the title of
    the first orientation stream when that stream has an item, and
    ['none'] otherwise. *)
Definition orientation_title_or_none {M : Type} (orientation : list (Handle M)) : string :=
  match orientation with
  | stream :: _ =>
    match msgs stream with
    | _ :: _ => title stream
    | [] => "none"
    end
  | [] => "none"
  end.

(** Whether the character [c] occurs in [s]. *)
Fixpoint occurs (c : ascii) (s : string) : bool :=
  match s with
  | EmptyString => false
  | String c' rest => Ascii.eqb c' c || occurs c rest
  end.


(** The invariant of the loop of [positions]: the three offsets are set
    together. *)
Definition offsets_set {F : Type} (st : Positions.state F) : Prop :=
  Positions.e_offset st <> None ->
  Positions.n_offset st <> None /\ Positions.u_offset st <> None.

(** No section a run pushes has an empty widget list. *)
Definition never_pushes_empty (run : Gen Detail.Section unit) : Prop :=
  Forall (fun s => Detail.widgets s <> []) (pushed (trace run)).


End Expected.

(** ** Example inputs on binary64 values *)

Module Sample.

Import Gnss.
Local Open Scope float_scope.

(** Messages that are already typed: deserialising is the identity. *)
Definition navsatfix_class : msg_class (NavSatFix.t float) (NavSatFix.t float) :=
  mkClass (fun data => data).
Definition imu_class : msg_class (Imu.t float) (Imu.t float) :=
  mkClass (fun data => data).
Definition orientation_class
  : msg_class (NavSatOrientation.t float) (NavSatOrientation.t float) :=
  mkClass (fun data => data).

(** A registry that knows exactly one message type. *)
Definition registry {C : Type} (known : string) (cls : C) (msg_type : string) : option C :=
  if String.eqb msg_type known then Some cls else None.

(** A registry that knows no message type. *)
Definition empty_registry {C : Type} (msg_type : string) : option C := None.

(** Seconds and nanoseconds as one float. *)
Definition to_sec (t : Time) : float :=
  float_of_Z (secs t) + float_of_Z (nsecs t) / 1000000000.

(** A stand-in for the projection: it scales degrees, and like the UTM
    projection it is defined for latitudes from 80 degrees south to 84
    degrees north only. *)
Definition banded_projection (latitude longitude : float)
  : option (float * float * Z * string) :=
  if (PrimFloat.leb (-80) latitude && PrimFloat.leb latitude 84)%bool
  then Some (longitude * 1000, latitude * 1000, 0%Z, ""%string)
  else None.

(** A stand-in for [numpy.arctan2] that is right on the positive x axis. *)
Definition axis_arctan2 (y x : float) : float :=
  if (PrimFloat.eqb y 0 && PrimFloat.ltb 0 x)%bool then 0 else nan.

(** The binary64 value next to the square root of one half. *)
Definition sqrt_half : float := 0x1.6a09e667f3bcdp-1.

Definition covariance : float64x9 float := mkArray9 4 0 0 0 4 0 0 0 4.

Definition fix_at (t : Z) (latitude longitude altitude : float) : NavSatFix.t float :=
  NavSatFix.mk (mkHeader (mkTime t 0)) (Some (NavSatStatus.mk 0 1))
               latitude longitude altitude covariance.

(** Three valid fixes and one whose altitude is not a number. *)
Definition gnss_stream : Stream (NavSatFix.t float) :=
  mkStream "/gnss" "sensor_msgs/NavSatFix"
           [fix_at 1 10 50 100; fix_at 2 10 51 nan; fix_at 3 11 52 101; fix_at 4 12 53 103].

(** One valid fix at 30 degrees north, 100 degrees east. *)
Definition east_stream : Stream (NavSatFix.t float) :=
  mkStream "/gnss" "sensor_msgs/NavSatFix" [fix_at 1 30 100 5].

(** Streams without a valid record. *)
Definition nan_fix_stream : Stream (NavSatFix.t float) :=
  mkStream "/gnss" "sensor_msgs/NavSatFix" [fix_at 1 nan 50 100].

Definition nan_imu_stream : Stream (Imu.t float) :=
  mkStream "/imu" "sensor_msgs/Imu"
           [Imu.mk (mkHeader (mkTime 1 0)) (Quaternion.mk nan 0 0 1)].

Definition nan_orientation_stream : Stream (NavSatOrientation.t float) :=
  mkStream "/orientation" "nmea_navsat_driver/NavSatOrientation"
           [NavSatOrientation.mk (mkHeader (mkTime 1 0)) nan].

Definition empty_orientation_stream : Stream (NavSatOrientation.t float) :=
  mkStream "/orientation" "nmea_navsat_driver/NavSatOrientation" [].

Definition store (name : string) : File :=
  mkFile ("/store/" ++ name)%string name.

(** A stand-in for [datetime.fromtimestamp]: it converts the stamps of
    the years 1970 to 9999 and raises [ValueError] on the others. *)
Definition fromtimestamp (x : float) : option exn :=
  if (PrimFloat.leb 0 x && PrimFloat.leb x 253402300799)%bool
  then None
  else Some ValueError.

(** Output streams of [positions] and of [orientations] for two bags
    with the same topics. *)
Definition row_a : Positions.Row float := Positions.mkRow 1 10 50 100 0 0 0 0%Z 2.
Definition row_b : Positions.Row float := Positions.mkRow 3 11 52 101 1000 2000 1 0%Z 2.

Definition gps_a : list (Handle (Aggregate (Positions.Row float))) :=
  [mkHandle "/gnss" [mkAggregate [row_a]]].
Definition gps_b : list (Handle (Aggregate (Positions.Row float))) :=
  [mkHandle "/gnss" [mkAggregate [row_a; row_b]]].

Definition imu_a : list (Handle (Aggregate (Imus.Row float))) :=
  [mkHandle "/imu" [mkAggregate [Imus.mkRow 1 0]]].
Definition imu_b : list (Handle (Aggregate (Imus.Row float))) :=
  [mkHandle "/imu" [mkAggregate [Imus.mkRow 1 0; Imus.mkRow 3 1]]].

(** Two camera topics: their video streams and their image streams. *)
Definition videos : list (Handle File) :=
  [mkHandle "/cam/right" [store "right.webm"]; mkHandle "/cam/left" [store "left.webm"]].

Definition image_streams : list (Handle File) :=
  [mkHandle "/cam/right" [store "r0.jpg"; store "r1.jpg"];
   mkHandle "/cam/left" [store "l0.jpg"]].


End Sample.

(** ** detail.py: the summary widgets *)

Module Summary.

Module DatasetFile.
Record t : Type := mk { path : string; size : Z }.
End DatasetFile.

Record Dataset : Type := mkDataset { files : list DatasetFile.t }.

Module Bag.
Record t : Type := mk { start_time : Z; end_time : Z; duration : Z; msg_count : Z }.
End Bag.

Module Bagmeta.
Record t : Type := mk {
  bags : list Bag.t;
  start_time : Z;
  end_time : Z;
  duration : Z;
  topics : list Detail.Topic
}.
End Bagmeta.

Inductive Cell : Type :=
| Uint64 (n : Z)
| Timestamp (t : Z)
| Timedelta (d : Z)
| Link (href title : string).

(** An entry of a keyval widget. *)
Record Item : Type := mkItem {
  i_title : string;
  i_formatter : option string;
  i_list : bool;
  i_cell : Cell
}.

Record Column : Type := mkColumn {
  c_title : string;
  c_formatter : option string;
  c_align : option string
}.

Record Row : Type := mkRow { id : nat; cells : list Cell }.

Inductive Widget : Type :=
| Keyval (items : list Item)
| Table (columns : list Column) (rows : list Row).

(** [os.path.basename]: what follows the last slash.  [current] is the
    part read since the last slash. *)
Fixpoint basename_from (current p : string) : string :=
  match p with
  | EmptyString => current
  | String c rest =>
    if Ascii.eqb c "/" then basename_from EmptyString rest
    else basename_from (current ++ String c EmptyString) rest
  end.

Definition basename (p : string) : string := basename_from EmptyString p.

(** ['{}'.format(idx)] for an index. *)
Definition format_index (idx : nat) : string :=
  NilEmpty.string_of_uint (Nat.to_uint idx).

(** [sum(xs)]. *)
Definition sum (xs : list Z) : Z := fold_left Z.add xs 0%Z.

(** An attribute of what a pull returned: [None] has no attributes. *)
Definition attribute {I A B : Type} (obj : option A) (field : A -> B) : Gen I B :=
  match obj with
  | Some o => ret (field o)
  | None => raise AttributeError
  end.

Definition summary_keyval (dataset : Handle Dataset) (bagmeta : Handle Bagmeta.t)
  : Gen Widget unit :=
  let dataset := pull dataset in
  let bagmeta := pull bagmeta in
  files1 <- attribute dataset files ;;
  files2 <- attribute dataset files ;;
  start_time <- attribute bagmeta Bagmeta.start_time ;;
  end_time <- attribute bagmeta Bagmeta.end_time ;;
  duration <- attribute bagmeta Bagmeta.duration ;;
  push (Keyval
          [mkItem "size" (Some "filesize") false
                  (Uint64 (sum (List.map DatasetFile.size files1)));
           mkItem "files" None false (Uint64 (Z.of_nat (List.length files2)));
           mkItem "start time" (Some "datetime") false (Timestamp start_time);
           mkItem "end time" (Some "datetime") false (Timestamp end_time);
           mkItem "duration" (Some "timedelta") false (Timedelta duration)]).

(** The rows of [enumerate(zip(bagmeta.bags, dataset.files))], counting
    from [idx]. *)
Fixpoint bag_rows (idx : nat) (pairs : list (Bag.t * DatasetFile.t)) : list Row :=
  match pairs with
  | [] => []
  | (bag, f) :: rest =>
    mkRow idx [Link (format_index idx) (basename (DatasetFile.path f));
               Uint64 (DatasetFile.size f);
               Timestamp (Bag.start_time bag);
               Timestamp (Bag.end_time bag);
               Timedelta (Bag.duration bag);
               Uint64 (Bag.msg_count bag)]
    :: bag_rows (S idx) rest
  end.

Definition bagmeta_table (bagmeta : Handle Bagmeta.t) (dataset : Handle Dataset)
  : Gen Widget unit :=
  let dataset := pull dataset in
  let bagmeta := pull bagmeta in
  let columns := [mkColumn "Name" (Some "rellink") None;
                  mkColumn "Size" (Some "filesize") None;
                  mkColumn "Start time" (Some "datetime") None;
                  mkColumn "End time" (Some "datetime") None;
                  mkColumn "Duration" (Some "timedelta") None;
                  mkColumn "Message count" None (Some "right")] in
  bags <- attribute bagmeta Bagmeta.bags ;;
  files <- attribute dataset files ;;
  let rows := bag_rows 0 (combine bags files) in
  push (Table columns rows).

End Summary.

(** ** What the nodes are expected to compute *)

Module Behaviour.

Import Gnss.

Section Fixes.
Context {F : Type} {ops : Float64 F}.
Variable to_sec : Time -> F.
Variable from_latlon : F -> F -> option (F * F * Z * string).

(** Easting and northing of a fix, as [positions] asks for them. *)
Definition projected (r : NavSatFix.t F) : option (F * F) :=
  match from_latlon (NavSatFix.longitude r) (NavSatFix.latitude r) with
  | Some (e, n, _, _) => Some (e, n)
  | None => None
  end.

(** The row of the fix [r] seen from the origin [(e0, n0, u0)]. *)
Definition row_from (e0 n0 u0 : F) (r : NavSatFix.t F) : option (Positions.Row F) :=
  match projected r, NavSatFix.status r with
  | Some (e, n), Some s =>
    Some (Positions.mkRow (to_sec (stamp (NavSatFix.header r)))
                          (NavSatFix.latitude r) (NavSatFix.longitude r)
                          (NavSatFix.altitude r)
                          (sub e e0) (sub n n0) (sub (NavSatFix.altitude r) u0)
                          (NavSatStatus.status s)
                          (sqrt (at0 (NavSatFix.position_covariance r))))
  | _, _ => None
  end.

(** All rows, or [None] as soon as one cannot be built. *)
Fixpoint rows_from (e0 n0 u0 : F) (fixes : list (NavSatFix.t F))
  : option (list (Positions.Row F)) :=
  match fixes with
  | [] => Some []
  | r :: rest =>
    match row_from e0 n0 u0 r, rows_from e0 n0 u0 rest with
    | Some row, Some rows => Some (row :: rows)
    | _, _ => None
    end
  end.

(** The rows of a list of valid fixes: every fix is seen from the first
    one. *)
Definition reference_rows (valid : list (NavSatFix.t F)) : option (list (Positions.Row F)) :=
  match valid with
  | [] => Some []
  | r0 :: _ =>
    match projected r0 with
    | Some (e0, n0) => rows_from e0 n0 (NavSatFix.altitude r0) valid
    | None => None
    end
  end.
End Fixes.

Section Plot.
Context {F : Type} {ops : Float64 F}.
Variable fromtimestamp : F -> option exn.

(** The exception of the first stamp that cannot be converted. *)
Fixpoint refused (stamps : list F) : option exn :=
  match stamps with
  | [] => None
  | x :: rest =>
    match fromtimestamp x with
    | Some e => Some e
    | None => refused rest
    end
  end.

(** The rows of the item of the first orientation stream; none without
    that stream or without its item. *)
Definition orientation_rows (orientation : list (Handle (Aggregate (Imus.Row F))))
  : list (Imus.Row F) :=
  match orientation with
  | stream :: _ =>
    match msgs stream with
    | msg :: _ => values msg
    | [] => []
    end
  | [] => []
  end.

(** The stamps the plot converts, in order: those of the orientation
    rows, then those of the position rows whose latitude is finite. *)
Definition plot_stamps (orientation : list (Handle (Aggregate (Imus.Row F))))
  (gps : list (Positions.Row F)) : list F :=
  List.map Imus.r_stamp (orientation_rows orientation)
  ++ List.map Positions.r_stamp
              (filter (fun row => isfinite (Positions.r_latitude row)) gps).
End Plot.


(** The header [title] is set once, and before every item pushed, every
    log entry and every file made. *)
Definition header_before_output {I : Type} (title : string) (t : list (event I)) : Prop :=
  exists rest, t = SetHeader title :: rest /\ headers rest = [].

(** The titles of a list of streams ascend. *)
Definition titles_ascend {M : Type} (hs : list (Handle M)) : Prop :=
  Sorted (fun a b => String.leb (title a) (title b) = true) hs.

(** The squared length of a vector. *)
Definition norm2 (v : list R) : R :=
  fold_right (fun x acc => (x * x + acc)%R) 0%R v.

(** The quaternion with all components negated. *)
Definition qopp (q : Quaternion.t R) : Quaternion.t R :=
  Quaternion.mk (- Quaternion.x q)%R (- Quaternion.y q)%R
                (- Quaternion.z q)%R (- Quaternion.w q)%R.

(** Whether a stream still has an item. *)
Definition has_item {M : Type} (h : Handle M) : bool :=
  match msgs h with
  | [] => false
  | _ :: _ => true
  end.

(** The video widget of a stream of video files: its title and the
    relative path of its first file. *)
Definition video_widget_of (v : Handle File) : option Detail.Widget :=
  match msgs v with
  | f :: _ => Some (Detail.mkWidget (Some (title v)) (Detail.Video (relpath f)))
  | [] => None
  end.

(** The gallery widget of a stream of image files. *)
Definition gallery_widget_of (s : Handle File) : option Detail.Widget :=
  Some (Detail.mkWidget (Some (title s)) (Detail.Gallery (List.map relpath (msgs s)))).

(** The cells of the table row of a topic. *)
Definition topic_cells (t : Detail.Topic) : list Detail.Cell :=
  [Detail.CellText (Detail.name t); Detail.CellText (Detail.t_msg_type t);
   Detail.CellUint64 (Detail.msg_count t)].

(** Link and size of a row of the bag table. *)
Definition row_link (r : Summary.Row) : option (string * string) :=
  match Summary.cells r with
  | Summary.Link href name :: _ => Some (href, name)
  | _ => None
  end.

Definition row_size (r : Summary.Row) : Z :=
  match Summary.cells r with
  | _ :: Summary.Uint64 n :: _ => n
  | _ => 0%Z
  end.

(** The value of the entry [title] of a keyval widget. *)
Definition item_value (title : string) (w : Summary.Widget) : option Summary.Cell :=
  match w with
  | Summary.Keyval items =>
    option_map Summary.i_cell
               (find (fun i => String.eqb (Summary.i_title i) title) items)
  | Summary.Table _ _ => None
  end.

(** The quaternions of a rotation about the lateral axis (pitch) and
    about the longitudinal axis (roll), and of yaw, then pitch, then
    roll. *)
Definition pitch_quaternion (p : R) : Quaternion.t R :=
  Quaternion.mk 0%R (sin (p / 2)) 0%R (cos (p / 2)).

Definition roll_quaternion (a : R) : Quaternion.t R :=
  Quaternion.mk (sin (a / 2)) 0%R 0%R (cos (a / 2)).

Definition euler_quaternion (t p a : R) : Quaternion.t R :=
  Reference.qmul (Reference.qmul (Reference.yaw_quaternion t) (pitch_quaternion p))
                 (roll_quaternion a).

End Behaviour.

(** ** More example inputs *)

Module Cases.

Import Gnss.
Local Open Scope float_scope.

(** One valid fix. *)
Definition one_fix_stream : Stream (NavSatFix.t float) :=
  mkStream "/gnss" "sensor_msgs/NavSatFix" [Sample.fix_at 1 10 50 100].

(** The output stream of [positions] for a stream without valid fix. *)
Definition empty_gps : list (Handle (Aggregate (Positions.Row float))) :=
  [mkHandle "/gnss" [mkAggregate []]].

(** The position stream of a bag with one row stamped beyond the year
    9999. *)
Definition late_gps : list (Handle (Aggregate (Positions.Row float))) :=
  [mkHandle "/gnss" [mkAggregate [Positions.mkRow 1e18 10 50 100 0 0 0 0%Z 2]]].

(** Two valid fixes and one whose altitude is not a number.  The last
    fix lies at 85 degrees north, 85 degrees east: beyond the latitudes
    of the projection, whichever of the two is taken for the latitude. *)
Definition polar_stream : Stream (NavSatFix.t float) :=
  mkStream "/gnss" "sensor_msgs/NavSatFix"
           [Sample.fix_at 1 10 50 100; Sample.fix_at 2 10 51 nan; Sample.fix_at 3 85 85 101].

(** A valid fix, a fix whose altitude is not a number, and a valid fix
    at 30 degrees north, 100 degrees east. *)
Definition far_east_stream : Stream (NavSatFix.t float) :=
  mkStream "/gnss" "sensor_msgs/NavSatFix"
           [Sample.fix_at 1 10 50 100; Sample.fix_at 2 10 51 nan; Sample.fix_at 3 30 100 5].




(** A video stream without file. *)
Definition broken_videos : list (Handle File) :=
  [mkHandle "/cam/right" [Sample.store "right.webm"]; mkHandle "/cam/left" []].

(** The output stream of [gnss_plots] for [Sample.gps_a] and
    [Sample.imu_a]. *)
Definition plot_stream : Handle File :=
  mkHandle "/gnss with /imu" [Sample.store "gnss__imu.jpg"].

(** A dataset of two bags. *)
Definition dataset : Summary.Dataset :=
  Summary.mkDataset [Summary.DatasetFile.mk "/data/a.bag" 10;
                     Summary.DatasetFile.mk "/data/b.bag" 32].

Definition bagmeta : Summary.Bagmeta.t :=
  Summary.Bagmeta.mk [Summary.Bag.mk 100 200 100 7; Summary.Bag.mk 200 500 300 9]
                     100 500 400 [].

End Cases.

(** * Properties *)

Import Gnss.

(** ** Generators *)

Lemma bind_ret_l {I A B : Type} (a : A) (f : A -> Gen I B) :
  bind ([], Done a) f = f a.
Proof. unfold bind. destruct (f a). reflexivity. Qed.

Lemma bind_done {I A B : Type} (t : list (event I)) (a : A) (f : A -> Gen I B) :
  bind (t, Done a) f = (t ++ fst (f a), snd (f a)).
Proof. unfold bind. destruct (f a). reflexivity. Qed.

Lemma pushed_map_Push {S : Type} (l : list S) : pushed (List.map Push l) = l.
Proof. induction l as [|a l IH]; simpl; [reflexivity | now rewrite IH]. Qed.

(** Unfolds the requests and the sequencing of a generator. *)
Ltac gen_step :=
  unfold set_header, push, log_warn, log_error, emit, abort, raise, ret, make_file;
  repeat (rewrite bind_ret_l || rewrite bind_done).

(** ** The merge node *)

Lemma forward_pushes {S : Type} (l : list S) : forward S l = (List.map Push l, Done tt).
Proof.
  induction l as [|a l IH]; cbn [forward].
  - reflexivity.
  - gen_step. rewrite IH. reflexivity.
Qed.

(** C3: [orientations] pushes every item of [imus] in order, then every
    item of [navsatorients] in order, and then returns; for the inputs
    [1, 2] and [3, 4] the output is [1, 2, 3, 4]. *)
Theorem orientations_merges_in_order :
  (forall (S : Type) (imus navsatorients : list S),
     orientations S imus navsatorients
     = (List.map Push (imus ++ navsatorients), Done tt)
     /\ pushed (trace (orientations S imus navsatorients)) = imus ++ navsatorients)
  /\ pushed (trace (orientations nat [1; 2] [3; 4])) = [1; 2; 3; 4].
Proof.
  assert (H : forall (S : Type) (a b : list S),
             orientations S a b = (List.map Push (a ++ b), Done tt)).
  { intros S a b. unfold orientations.
    rewrite forward_pushes, bind_done, forward_pushes.
    simpl. now rewrite map_app. }
  split.
  - intros S a b. split; [apply H|]. rewrite H. apply pushed_map_Push.
  - reflexivity.
Qed.

(** ** The yaw angle *)

Section YawOverReals.
Local Open Scope R_scope.

Lemma cos_pos_range (t : R) : - PI < t <= PI -> 0 < cos t -> - (PI / 2) < t < PI / 2.
Proof.
  intros [Hlo Hhi] Hc. split.
  - destruct (Rlt_dec (- (PI / 2)) t) as [|Hn]; [assumption|exfalso].
    assert (Hc' : cos (- t) <= 0) by (apply cos_le_0; lra).
    rewrite cos_neg in Hc'. lra.
  - destruct (Rlt_dec t (PI / 2)) as [|Hn]; [assumption|exfalso].
    assert (Hc' : cos t <= 0) by (apply cos_le_0; lra). lra.
Qed.

Lemma tan_shift (t k : R) :
  cos t <> 0 -> sin (t + k) = - sin t -> cos (t + k) = - cos t ->
  sin t / cos t = tan (t + k).
Proof.
  intros Hc Hs Hk. unfold tan. rewrite Hs, Hk. field. assumption.
Qed.

(** The angle of the point [(cos t, sin t)] is [t]. *)
Lemma Ratan2_sin_cos (t : R) : - PI < t <= PI -> Ratan2 (sin t) (cos t) = t.
Proof.
  intros Ht. pose proof PI_RGT_0 as Hpi.
  pose proof (sin2_cos2 t) as Hsc. unfold Rsqr in Hsc.
  unfold Ratan2.
  destruct (Rlt_dec 0 (cos t)) as [Hpos|Hnpos].
  - change (sin t / cos t) with (tan t). apply atan_tan.
    apply cos_pos_range; assumption.
  - destruct (Rlt_dec (cos t) 0) as [Hneg|Hnneg].
    + destruct (Rle_dec 0 (sin t)) as [Hs|Hs].
      * assert (H0 : 0 <= t).
        { destruct (Rle_dec 0 t) as [|Hn]; [assumption|exfalso].
          assert (sin t < 0) by (apply sin_lt_0_var; lra). lra. }
        assert (H1 : PI / 2 < t).
        { destruct (Rlt_dec (PI / 2) t) as [|Hn]; [assumption|exfalso].
          assert (0 <= cos t) by (apply cos_ge_0; lra). lra. }
        rewrite (tan_shift t (- PI)).
        -- rewrite atan_tan; lra.
        -- lra.
        -- replace (t + - PI) with (- (PI - t)) by ring.
           rewrite sin_neg. rewrite sin_PI_x. reflexivity.
        -- replace (t + - PI) with (- (PI - t)) by ring.
           rewrite cos_neg. replace (PI - t) with (- t + PI) by ring.
           rewrite neg_cos. rewrite cos_neg. reflexivity.
      * assert (H0 : t < 0).
        { destruct (Rlt_dec t 0) as [|Hn]; [assumption|exfalso].
          assert (0 <= sin t) by (apply sin_ge_0; lra). lra. }
        assert (H1 : t < - (PI / 2)).
        { destruct (Rlt_dec t (- (PI / 2))) as [|Hn]; [assumption|exfalso].
          assert (0 <= cos t) by (apply cos_ge_0; lra). lra. }
        rewrite (tan_shift t PI).
        -- rewrite atan_tan; lra.
        -- lra.
        -- apply neg_sin.
        -- apply neg_cos.
    + assert (Hc0 : cos t = 0) by lra.
      assert (Hcases : t = PI / 2 \/ t = - (PI / 2)).
      { destruct (Rlt_dec (PI / 2) t) as [Hgt|Hle].
        - assert (cos t < 0) by (apply cos_lt_0; lra). lra.
        - destruct (Rlt_dec t (- (PI / 2))) as [Hlt|Hge].
          + assert (Hc' : cos (- t) < 0) by (apply cos_lt_0; lra).
            rewrite cos_neg in Hc'. lra.
          + destruct (Req_dec t (PI / 2)) as [|Hne1]; [left; assumption|].
            destruct (Req_dec t (- (PI / 2))) as [|Hne2]; [right; assumption|].
            assert (0 < cos t) by (apply cos_gt_0; lra). lra. }
      destruct Hcases as [-> | ->].
      * rewrite sin_PI2. destruct (Rlt_dec 0 1); [reflexivity | lra].
      * rewrite sin_neg, sin_PI2.
        repeat match goal with
               | |- context [Rlt_dec ?a ?b] => destruct (Rlt_dec a b)
               end; lra.
Qed.

(** The first column of [rot]: the image of the reference vector. *)
Lemma dot_unit_x (q : Quaternion.t R) :
  dot (rot q) [1; 0; 0] =
  [1 - 2 * Quaternion.y q * Quaternion.y q - 2 * Quaternion.z q * Quaternion.z q;
   2 * (Quaternion.x q * Quaternion.y q + Quaternion.z q * Quaternion.w q);
   2 * (Quaternion.x q * Quaternion.z q - Quaternion.y q * Quaternion.w q)].
Proof.
  destruct q as [a b c d]. unfold dot, rot, dot_row. simpl.
  repeat (f_equal; try ring).
Qed.

(** For a unit quaternion, [rot] is the matrix of the rotation [q v q*]. *)
Lemma rot_is_rotation (q : Quaternion.t R) (v1 v2 v3 : R) :
  Reference.qnorm2 q = 1 ->
  dot (rot q) [v1; v2; v3] = Reference.rotate q [v1; v2; v3].
Proof.
  destruct q as [a b c d]. unfold Reference.qnorm2. intros Hn.
  unfold dot, rot, dot_row, Reference.rotate, Reference.qmul, Reference.qconj. simpl.
  match goal with
  | |- [?a1; ?a2; ?a3] = [?b1; ?b2; ?b3] =>
    assert (E1 : a1 = b1) by (rewrite <- Hn; ring);
    assert (E2 : a2 = b2) by (rewrite <- Hn; ring);
    assert (E3 : a3 = b3) by (rewrite <- Hn; ring)
  end.
  rewrite E1, E2, E3. reflexivity.
Qed.

Lemma yaw_of_yaw_quaternion (t : R) :
  - PI < t <= PI -> yaw_angle Ratan2 (Reference.yaw_quaternion t) = t.
Proof.
  intros Ht. unfold yaw_angle. rewrite dot_unit_x. simpl.
  replace (1 - 2 * 0 * 0 - 2 * sin (t / 2) * sin (t / 2)) with (cos t).
  2:{ replace t with (2 * (t / 2)) at 1 by field. rewrite cos_2a_sin. ring. }
  replace (2 * (0 * 0 + sin (t / 2) * cos (t / 2))) with (sin t).
  2:{ replace t with (2 * (t / 2)) at 1 by field. rewrite sin_2a. ring. }
  apply Ratan2_sin_cos. assumption.
Qed.

Lemma yaw_quaternion_unit (t : R) : Reference.qnorm2 (Reference.yaw_quaternion t) = 1.
Proof.
  unfold Reference.qnorm2, Reference.yaw_quaternion.
  pose proof (sin2_cos2 (t / 2)) as H. unfold Rsqr in H. lra.
Qed.

End YawOverReals.

(** C4: over the real numbers, [yaw_angle] multiplies the rotation matrix
    of the quaternion with the reference vector (1, 0, 0) and returns the
    two-argument arctangent of the rotated y and x; for a unit quaternion
    the matrix is the rotation [q v q*].  The identity quaternion has yaw
    0, the quaternion of a yaw [t] has yaw [t] for every [t] in (-pi, pi],
    in particular pi/2 for a quarter turn.  On binary64 values the identity
    quaternion is rotated to (1, 0, 0) exactly, whatever [arctan2] is. *)
Theorem yaw_angle_standard_rotation :
  (forall (q : Quaternion.t R) (v1 v2 v3 : R),
     Reference.qnorm2 q = 1%R ->
     dot (rot q) [v1; v2; v3] = Reference.rotate q [v1; v2; v3])
  /\ (forall q : Quaternion.t R,
        Reference.qnorm2 q = 1%R ->
        yaw_angle Ratan2 q
        = Ratan2 (nth 1 (Reference.rotate q [1; 0; 0]%R) 0%R)
                 (nth 0 (Reference.rotate q [1; 0; 0]%R) 0%R))
  /\ yaw_angle Ratan2 (Quaternion.mk 0 0 0 1)%R = 0%R
  /\ (forall t : R, (- PI < t <= PI)%R ->
        yaw_angle Ratan2 (Reference.yaw_quaternion t) = t)
  /\ yaw_angle Ratan2 (Reference.yaw_quaternion (PI / 2)) = (PI / 2)%R
  /\ (forall arctan2 : float -> float -> float,
        yaw_angle arctan2 (Quaternion.mk 0 0 0 1)%float = arctan2 0%float 1%float).
Proof.
  split; [exact rot_is_rotation|].
  split.
  { intros q Hq. unfold yaw_angle.
    change [of_int 1; of_int 0; of_int 0] with [1; 0; 0]%R.
    rewrite (rot_is_rotation q 1 0 0 Hq). reflexivity. }
  split.
  { unfold yaw_angle. change [of_int 1; of_int 0; of_int 0] with [1; 0; 0]%R.
    rewrite dot_unit_x. simpl.
    replace (1 - 2 * 0 * 0 - 2 * 0 * 0)%R with 1%R by ring.
    replace (2 * (0 * 0 + 0 * 1))%R with 0%R by ring.
    unfold Ratan2. destruct (Rlt_dec 0 1) as [_|Hn]; [|exfalso; lra].
    replace (0 / 1)%R with 0%R by field. exact atan_0. }
  split; [exact yaw_of_yaw_quaternion|].
  split.
  { apply yaw_of_yaw_quaternion. pose proof PI_RGT_0. lra. }
  intros arctan2. reflexivity.
Qed.

Lemma yaw_angle_standard_rotation_witness :
  Reference.qnorm2 (Quaternion.mk 0 0 0 1)%R = 1%R
  /\ dot (rot (Quaternion.mk 0 0 0 1)%R) [1; 0; 0]%R
     = Reference.rotate (Quaternion.mk 0 0 0 1)%R [1; 0; 0]%R
  /\ yaw_angle Ratan2 (Quaternion.mk 0 0 0 1)%R
     = Ratan2 (nth 1 (Reference.rotate (Quaternion.mk 0 0 0 1)%R [1; 0; 0]%R) 0%R)
              (nth 0 (Reference.rotate (Quaternion.mk 0 0 0 1)%R [1; 0; 0]%R) 0%R)
  /\ (- PI < PI / 4 <= PI)%R
  /\ yaw_angle Ratan2 (Reference.yaw_quaternion (PI / 4)) = (PI / 4)%R.
Proof.
  assert (H : Reference.qnorm2 (Quaternion.mk 0 0 0 1)%R = 1%R)
    by (unfold Reference.qnorm2; ring).
  assert (Hq : (- PI < PI / 4 <= PI)%R) by (pose proof PI_RGT_0; lra).
  split; [exact H|].
  split; [exact (proj1 yaw_angle_standard_rotation (Quaternion.mk 0 0 0 1)%R 1%R 0%R 0%R H)|].
  split; [exact (proj1 (proj2 yaw_angle_standard_rotation) (Quaternion.mk 0 0 0 1)%R H)|].
  split; [exact Hq|].
  exact (proj1 (proj2 (proj2 (proj2 yaw_angle_standard_rotation))) (PI / 4)%R Hq).
Defined.

(** On binary64 values the quaternion of a quarter turn rotates the
    reference vector to within one unit in the last place of (0, 1, 0). *)
Lemma quarter_turn_binary64 :
  dot (rot (Quaternion.mk 0%float 0%float Sample.sqrt_half Sample.sqrt_half))
      [1%float; 0%float; 0%float]
  = [(- 0x1p-52)%float; 0x1.0000000000001p+0%float; 0%float].
Proof. reflexivity. Qed.

(** ** The position extractor *)

Section PositionsProofs.
Context {F : Type} {ops : Float64 F}.
Variable P : Type.
Variable get_message_class : string -> option (msg_class P (NavSatFix.t F)).
Variable to_sec : Time -> F.
Variable from_latlon : F -> F -> option (F * F * Z * string).
Variable cls : msg_class P (NavSatFix.t F).

(** The test of the code is the test of the specification. *)
Lemma is_erroneous_skipped_fix (r : NavSatFix.t F) :
  is_erroneous r = Expected.skipped_fix r.
Proof.
  unfold is_erroneous, hasattr_status, Expected.skipped_fix.
  destruct (NavSatFix.status r); cbn [negb orb]; [|reflexivity].
  destruct (isnan (NavSatFix.longitude r)), (isnan (NavSatFix.latitude r));
    reflexivity.
Qed.

Lemma body_skips (st : Positions.state F) (msg : P) :
  Expected.skipped_fix (deserialize cls msg) = true ->
  positions_body P to_sec from_latlon cls st msg
  = ([], Done (Positions.mkState (S (Positions.erroneous st))
                                 (Positions.e_offset st) (Positions.n_offset st)
                                 (Positions.u_offset st) (Positions.positions st))).
Proof.
  intros H. unfold positions_body. rewrite is_erroneous_skipped_fix, H. reflexivity.
Qed.

Lemma body_appends (st : Positions.state F) (msg : P) :
  Expected.skipped_fix (deserialize cls msg) = false ->
  from_latlon (NavSatFix.longitude (deserialize cls msg))
              (NavSatFix.latitude (deserialize cls msg)) <> None ->
  Expected.offsets_set st ->
  exists st' row,
    positions_body P to_sec from_latlon cls st msg = ([], Done st')
    /\ Positions.erroneous st' = Positions.erroneous st
    /\ Positions.positions st' = Positions.positions st ++ [row]
    /\ Expected.row_of to_sec (deserialize cls msg) row
    /\ Expected.offsets_set st'.
Proof.
  intros Herr Hproj Hinv. unfold positions_body. rewrite is_erroneous_skipped_fix, Herr.
  destruct (from_latlon _ _) as [[[[e n] zn] zl]|]; [|congruence].
  assert (Hst : exists s, NavSatFix.status (deserialize cls msg) = Some s).
  { unfold Expected.skipped_fix in Herr.
    destruct (NavSatFix.status (deserialize cls msg)); [eauto | discriminate]. }
  destruct Hst as [s Hs]. rewrite Hs.
  destruct (Positions.e_offset st) as [e0|] eqn:He.
  - destruct Hinv as [Hn Hu]; [congruence|].
    destruct (Positions.n_offset st) as [n0|] eqn:Hn0; [|congruence].
    destruct (Positions.u_offset st) as [u0|] eqn:Hu0; [|congruence].
    rewrite He. simpl. eexists. eexists. split; [reflexivity|]. simpl.
    unfold Expected.row_of, Expected.offsets_set.
    repeat split; try congruence; try (rewrite Hs; reflexivity).
    all: simpl; try rewrite He; try rewrite Hn0; try rewrite Hu0; congruence.
  - simpl. eexists. eexists. split; [reflexivity|]. simpl.
    unfold Expected.row_of, Expected.offsets_set.
    repeat split; try congruence; try (rewrite Hs; reflexivity).
    all: simpl; congruence.
Qed.

(** The loop counts the skipped fixes and appends one row per valid fix,
    in order, provided the projection returns on the valid ones. *)
Lemma loop_spec (pending : list P) : forall st : Positions.state F,
  Expected.offsets_set st ->
  (forall r, In r (Expected.valid_fixes P cls pending) ->
     from_latlon (NavSatFix.longitude r) (NavSatFix.latitude r) <> None) ->
  exists st' rows,
    positions_loop P to_sec from_latlon cls pending st = ([], Done st')
    /\ Positions.erroneous st'
       = (Positions.erroneous st + Expected.skipped_fixes P cls pending)%nat
    /\ Positions.positions st' = Positions.positions st ++ rows
    /\ Forall2 (Expected.row_of to_sec) (Expected.valid_fixes P cls pending) rows.
Proof.
  induction pending as [|msg rest IH]; intros st Hinv Hproj.
  - exists st, []. cbn. rewrite Nat.add_0_r, app_nil_r. auto.
  - cbn [positions_loop]. unfold Expected.valid_fixes, Expected.skipped_fixes in *.
    cbn [List.map filter] in *.
    destruct (Expected.skipped_fix (deserialize cls msg)) eqn:Herr; cbn [negb] in *.
    + rewrite (body_skips st msg Herr), bind_ret_l.
      destruct (IH (Positions.mkState (S (Positions.erroneous st))
                                      (Positions.e_offset st) (Positions.n_offset st)
                                      (Positions.u_offset st) (Positions.positions st)))
        as (st' & rows & Hl & He & Hp & Hr).
      * exact Hinv.
      * exact Hproj.
      * exists st', rows. cbn in He, Hp. cbn [List.length]. repeat split; auto. lia.
    + destruct (body_appends st msg Herr) as (st1 & row & Hb & He1 & Hp1 & Hrow & Hinv1).
      * apply Hproj. left. reflexivity.
      * exact Hinv.
      * rewrite Hb, bind_ret_l.
        destruct (IH st1 Hinv1) as (st' & rows & Hl & He & Hp & Hr).
        { intros r Hr. apply Hproj. right. exact Hr. }
        exists st', (row :: rows). repeat split; auto.
        -- lia.
        -- rewrite Hp, Hp1, <- app_assoc. reflexivity.
Qed.

Lemma positions_node_spec (stream : Stream P) :
  get_message_class (msg_type stream) = Some cls ->
  (forall r, In r (Expected.valid_fixes P cls (messages stream)) ->
     from_latlon (NavSatFix.longitude r) (NavSatFix.latitude r) <> None) ->
  exists rows,
    positions P get_message_class to_sec from_latlon stream
    = (SetHeader (topic stream)
         :: Expected.skip_warning (Expected.skipped_fixes P cls (messages stream))
         ++ [Push (mkAggregate rows)], Done tt)
    /\ Forall2 (Expected.row_of to_sec)
               (Expected.valid_fixes P cls (messages stream)) rows.
Proof.
  intros Hcls Hproj.
  destruct (loop_spec (messages stream) positions_init) as (st & rows & Hl & He & Hp & Hr).
  - intros H. cbn in H. congruence.
  - exact Hproj.
  - exists rows. split; [|exact Hr].
    unfold positions. rewrite Hcls. cbn [instantiate]. gen_step.
    rewrite Hl. gen_step. cbn in He, Hp. rewrite He, Hp. unfold Expected.skip_warning.
    destruct (0 <? Expected.skipped_fixes P cls (messages stream))%nat; reflexivity.
Qed.

End PositionsProofs.

(** C2: when the message type of the stream resolves and the projection
    returns on the valid fixes, [positions] skips every fix without status
    or with a latitude, longitude or altitude that is not a number, adding
    one to the count and nothing to the rows; at the end of the stream it
    pushes one aggregate with one row per valid fix, in order, after one
    warning with the count if and only if the count is not zero. *)
Theorem positions_counts_and_skips :
  forall (F : Type) (ops : Float64 F) (P : Type)
         (get_message_class : string -> option (msg_class P (NavSatFix.t F)))
         (to_sec : Time -> F) (from_latlon : F -> F -> option (F * F * Z * string))
         (stream : Stream P) (cls : msg_class P (NavSatFix.t F)),
    get_message_class (msg_type stream) = Some cls ->
    (forall r, In r (Expected.valid_fixes P cls (messages stream)) ->
       from_latlon (NavSatFix.longitude r) (NavSatFix.latitude r) <> None) ->
    (forall (st : Positions.state F) (msg : P),
       Expected.skipped_fix (deserialize cls msg) = true ->
       positions_body P to_sec from_latlon cls st msg
       = ([], Done (Positions.mkState (S (Positions.erroneous st))
                                      (Positions.e_offset st) (Positions.n_offset st)
                                      (Positions.u_offset st) (Positions.positions st))))
    /\ exists rows,
         let run := positions P get_message_class to_sec from_latlon stream in
         let n := Expected.skipped_fixes P cls (messages stream) in
         run = (SetHeader (topic stream) :: Expected.skip_warning n
                  ++ [Push (mkAggregate rows)], Done tt)
         /\ pushed (trace run) = [mkAggregate rows]
         /\ warnings (trace run)
            = (if (0 <? n)%nat then [("skipped %d erroneous messages", [ArgInt n])] else [])
         /\ Forall2 (Expected.row_of to_sec)
                    (Expected.valid_fixes P cls (messages stream)) rows.
Proof.
  intros F ops P gmc to_sec from_latlon stream cls Hcls Hproj. split.
  - intros st msg H. apply body_skips. exact H.
  - destruct (positions_node_spec P gmc to_sec from_latlon cls stream Hcls Hproj)
      as (rows & Hrun & Hrows).
    exists rows. cbv zeta. rewrite Hrun. unfold Expected.skip_warning.
    destruct (0 <? Expected.skipped_fixes P cls (messages stream))%nat;
      repeat split; assumption.
Qed.

(** Three valid fixes and one with an altitude that is not a number: the
    aggregate has three rows and the warning counts one. *)
Lemma positions_counts_and_skips_witness :
  positions_body _ Sample.to_sec Sample.banded_projection Sample.navsatfix_class
                 positions_init (Sample.fix_at 2 10 51 nan)
  = ([], Done (Positions.mkState 1 None None None []))
  /\ exists rows,
      positions _ (Sample.registry "sensor_msgs/NavSatFix" Sample.navsatfix_class)
                               Sample.to_sec Sample.banded_projection Sample.gnss_stream
      = ([SetHeader "/gnss"; Log Warn "skipped %d erroneous messages" [ArgInt 1];
          Push (mkAggregate rows)], Done tt)
      /\ List.length rows = 3.
Proof.
  destruct (positions_counts_and_skips float binary64 _
              (Sample.registry "sensor_msgs/NavSatFix" Sample.navsatfix_class)
              Sample.to_sec Sample.banded_projection Sample.gnss_stream
              Sample.navsatfix_class) as [Hskip (rows & Hrun & _ & _ & Hrows)].
  - reflexivity.
  - intros r Hin. vm_compute in Hin.
    destruct Hin as [<- | [<- | [<- | []]]]; vm_compute; discriminate.
  - split.
    + apply (Hskip positions_init (Sample.fix_at 2 10 51 nan)). reflexivity.
    + exists rows. split; [exact Hrun|].
      apply Forall2_length in Hrows. rewrite <- Hrows. reflexivity.
Defined.

(** Two valid fixes and one skipped fix, the last fix at 85 degrees
    north, 85 degrees east, where the projection is not defined: the
    call raises on this valid fix and the run ends there.  No aggregate
    is pushed and the skipped fix is not reported.  Nor is there an
    aggregate for the stream of three valid fixes and one skipped fix
    when its message type does not resolve. *)
Lemma positions_raises_on_polar_fix :
  let run :=
    positions _ (Sample.registry "sensor_msgs/NavSatFix" Sample.navsatfix_class)
              Sample.to_sec Sample.banded_projection Cases.polar_stream in
  Expected.valid_fixes _ Sample.navsatfix_class (messages Cases.polar_stream)
  = [Sample.fix_at 1 10 50 100; Sample.fix_at 3 85 85 101]%float
  /\ Expected.skipped_fixes _ Sample.navsatfix_class (messages Cases.polar_stream) = 1
  /\ Sample.banded_projection 85%float 85%float = None
  /\ run = ([SetHeader "/gnss"], Raised OutOfRangeError)
  /\ ~ (exists agg, pushed (trace run) = [agg])
  /\ warnings (trace run) <> [("skipped %d erroneous messages", [ArgInt 1])]
  /\ positions _ Sample.empty_registry Sample.to_sec Sample.banded_projection
               Sample.gnss_stream
     = ([SetHeader "/gnss"], Raised TypeError).
Proof.
  repeat split; try reflexivity.
  - intros [agg H]. discriminate H.
  - discriminate.
Qed.

(** C1: on a stream with one valid fix at latitude 30 and longitude 100,
    [positions] hands the longitude to the projection as its latitude
    and the latitude as its longitude: the origin and the row come from
    [from_latlon 100 30].  With a projection that, like the UTM one, is
    defined up to 84 degrees north, the run ends with [OutOfRangeError],
    although the projection is defined at latitude 30, longitude 100. *)
Theorem positions_swaps_latitude_and_longitude :
  (forall from_latlon : float -> float -> option (float * float * Z * string),
     positions _ (Sample.registry "sensor_msgs/NavSatFix" Sample.navsatfix_class)
                              Sample.to_sec from_latlon Sample.east_stream
     = match from_latlon 100%float 30%float with
       | Some (e, n, _, _) =>
         ([SetHeader "/gnss";
           Push (mkAggregate
                   [Positions.mkRow 1%float 30%float 100%float 5%float
                                    (PrimFloat.sub e e) (PrimFloat.sub n n) 0%float
                                    0%Z 2%float])],
          Done tt)
       | None => ([SetHeader "/gnss"], Raised OutOfRangeError)
       end)
  /\ positions _ (Sample.registry "sensor_msgs/NavSatFix" Sample.navsatfix_class)
                              Sample.to_sec Sample.banded_projection Sample.east_stream
     = ([SetHeader "/gnss"], Raised OutOfRangeError)
  /\ Sample.banded_projection 30%float 100%float <> None.
Proof.
  split; [|split].
  - intros from_latlon.
    unfold positions, Sample.east_stream.
    cbn [topic msg_type messages]. 
    change (Sample.registry "sensor_msgs/NavSatFix" Sample.navsatfix_class
                            "sensor_msgs/NavSatFix") with (Some Sample.navsatfix_class).
    cbn [instantiate]. gen_step. cbn [positions_loop]. unfold positions_body.
    change (is_erroneous
              (deserialize Sample.navsatfix_class (Sample.fix_at 1 30 100 5)))
      with false.
    cbn match.
    change (NavSatFix.longitude (deserialize Sample.navsatfix_class (Sample.fix_at 1 30 100 5)))
      with 100%float.
    change (NavSatFix.latitude (deserialize Sample.navsatfix_class (Sample.fix_at 1 30 100 5)))
      with 30%float.
    destruct (from_latlon 100%float 30%float) as [[[[e n] zn] zl]|]; reflexivity.
  - reflexivity.
  - vm_compute. discriminate.
Qed.

(** ** The orientation extractors *)

Section OrientationProofs.
Context {F : Type} {ops : Float64 F}.
Variable P : Type.
Variable to_sec : Time -> F.
Variable arctan2 : F -> F -> F.

Lemma imus_loop_spec (cls : msg_class P (Imu.t F)) (pending : list P) :
  forall st : Imus.state F,
    imus_loop P to_sec arctan2 cls pending st
    = ([], Done (Imus.mkState
                   (Imus.erroneous st + Expected.skipped_imus P cls pending)
                   (Imus.imus st
                    ++ List.map (Expected.imu_row to_sec arctan2)
                                (Expected.valid_imus P cls pending)))).
Proof.
  induction pending as [|msg rest IH]; intros st.
  - cbn. rewrite Nat.add_0_r, app_nil_r. destruct st; reflexivity.
  - cbn [imus_loop]. unfold imus_body, Expected.skipped_imus, Expected.valid_imus in *.
    cbn [List.map filter].
    destruct (isnan (Quaternion.x (Imu.orientation (deserialize cls msg))));
      cbn [negb]; gen_step; rewrite IH; cbn [Imus.erroneous Imus.imus List.length List.map].
    + do 3 f_equal. lia.
    + rewrite <- app_assoc. reflexivity.
Qed.

Lemma imus_node_spec (get_message_class : string -> option (msg_class P (Imu.t F)))
  (cls : msg_class P (Imu.t F)) (stream : Stream P) :
  get_message_class (msg_type stream) = Some cls ->
  imus P get_message_class to_sec arctan2 stream
  = (SetHeader (topic stream)
       :: Expected.skip_warning (Expected.skipped_imus P cls (messages stream))
       ++ [Push (mkAggregate (List.map (Expected.imu_row to_sec arctan2)
                                       (Expected.valid_imus P cls (messages stream))))],
     Done tt).
Proof.
  intros Hcls. unfold imus. rewrite Hcls. cbn [instantiate]. gen_step.
  rewrite imus_loop_spec. gen_step.
  cbn [Imus.erroneous Imus.imus imus_init Nat.add app]. unfold Expected.skip_warning.
  destruct (0 <? Expected.skipped_imus P cls (messages stream))%nat; reflexivity.
Qed.

Lemma navsatorients_loop_spec (cls : msg_class P (NavSatOrientation.t F))
  (pending : list P) :
  forall st : NavSatOrients.state F,
    navsatorients_loop P to_sec cls pending st
    = ([], Done (NavSatOrients.mkState
                   (NavSatOrients.erroneous st + Expected.skipped_orients P cls pending)
                   (NavSatOrients.navsatorients st
                    ++ List.map (Expected.orient_row to_sec)
                                (Expected.valid_orients P cls pending)))).
Proof.
  induction pending as [|msg rest IH]; intros st.
  - cbn. rewrite Nat.add_0_r, app_nil_r. destruct st; reflexivity.
  - cbn [navsatorients_loop].
    unfold navsatorients_body, Expected.skipped_orients, Expected.valid_orients in *.
    cbn [List.map filter].
    destruct (isnan (NavSatOrientation.yaw (deserialize cls msg)));
      cbn [negb]; gen_step; rewrite IH;
      cbn [NavSatOrients.erroneous NavSatOrients.navsatorients List.length List.map].
    + do 3 f_equal. lia.
    + rewrite <- app_assoc. reflexivity.
Qed.

Lemma navsatorients_node_spec
  (get_message_class : string -> option (msg_class P (NavSatOrientation.t F)))
  (cls : msg_class P (NavSatOrientation.t F)) (stream : Stream P) :
  get_message_class (msg_type stream) = Some cls ->
  navsatorients P get_message_class to_sec stream
  = (SetHeader (topic stream)
       :: Expected.skip_warning (Expected.skipped_orients P cls (messages stream))
       ++ [Push (mkAggregate (List.map (Expected.orient_row to_sec)
                                       (Expected.valid_orients P cls (messages stream))))],
     Done tt).
Proof.
  intros Hcls. unfold navsatorients. rewrite Hcls. gen_step.
  rewrite navsatorients_loop_spec. gen_step.
  cbn [NavSatOrients.erroneous NavSatOrients.navsatorients navsatorients_init Nat.add app].
  unfold Expected.skip_warning.
  destruct (0 <? Expected.skipped_orients P cls (messages stream))%nat; reflexivity.
Qed.

End OrientationProofs.

(** C6: on a stream whose message type does not resolve, [navsatorients]
    logs an error and ends with Abort, so that it has no output stream;
    [positions] and [imus] call the missing class and end with a
    [TypeError], without logging. *)
Theorem unresolved_type_aborts_navsatorients_only :
  forall (F : Type) (ops : Float64 F) (P : Type) (to_sec : Time -> F)
         (from_latlon : F -> F -> option (F * F * Z * string))
         (arctan2 : F -> F -> F) (stream : Stream P),
    positions P Sample.empty_registry to_sec from_latlon stream
    = ([SetHeader (topic stream)], Raised TypeError)
    /\ imus P Sample.empty_registry to_sec arctan2 stream
       = ([SetHeader (topic stream)], Raised TypeError)
    /\ navsatorients P Sample.empty_registry to_sec stream
       = ([SetHeader (topic stream);
           Log Error "Message definition for %r not available" [ArgStr (msg_type stream)]],
          Aborted)
    /\ Framework.output_stream
         (navsatorients P Sample.empty_registry to_sec stream) = None
    /\ errors (trace (positions P Sample.empty_registry to_sec from_latlon stream)) = []
    /\ errors (trace (imus P Sample.empty_registry to_sec arctan2 stream)) = [].
Proof.
  intros. repeat split.
Qed.

Lemma filter_none_length {A : Type} (f : A -> bool) (l : list A) :
  filter (fun a => negb (f a)) l = [] -> List.length (filter f l) = List.length l.
Proof.
  induction l as [|a l IH]; cbn [filter List.length]; [reflexivity|].
  destruct (f a); cbn [negb List.length]; [|discriminate].
  intros H. now rewrite IH.
Qed.

(** C10, as the code has it: when the message type of the stream resolves
    and the stream has no valid record, each extractor returns after it
    has pushed exactly one aggregate with an empty list, and it logs the
    warning with the number of records unless the stream is empty. *)
Theorem extractors_push_empty_aggregate :
  forall (F : Type) (ops : Float64 F) (P : Type) (to_sec : Time -> F),
    (forall (get_message_class : string -> option (msg_class P (NavSatFix.t F)))
            (from_latlon : F -> F -> option (F * F * Z * string))
            (cls : msg_class P (NavSatFix.t F)) (stream : Stream P),
        get_message_class (msg_type stream) = Some cls ->
        Expected.valid_fixes P cls (messages stream) = [] ->
        positions P get_message_class to_sec from_latlon stream
        = (SetHeader (topic stream)
             :: Expected.skip_warning (List.length (messages stream))
             ++ [Push (mkAggregate [])], Done tt))
    /\ (forall (get_message_class : string -> option (msg_class P (Imu.t F)))
               (arctan2 : F -> F -> F)
               (cls : msg_class P (Imu.t F)) (stream : Stream P),
           get_message_class (msg_type stream) = Some cls ->
           Expected.valid_imus P cls (messages stream) = [] ->
           imus P get_message_class to_sec arctan2 stream
           = (SetHeader (topic stream)
                :: Expected.skip_warning (List.length (messages stream))
                ++ [Push (mkAggregate [])], Done tt))
    /\ (forall (get_message_class : string -> option (msg_class P (NavSatOrientation.t F)))
               (cls : msg_class P (NavSatOrientation.t F)) (stream : Stream P),
           get_message_class (msg_type stream) = Some cls ->
           Expected.valid_orients P cls (messages stream) = [] ->
           navsatorients P get_message_class to_sec stream
           = (SetHeader (topic stream)
                :: Expected.skip_warning (List.length (messages stream))
                ++ [Push (mkAggregate [])], Done tt))
    /\ Expected.skip_warning (I := Aggregate (Imus.Row F)) 0 = [].
Proof.
  intros F ops P to_sec. repeat split.
  - intros gmc from_latlon cls stream Hcls Hvalid.
    destruct (positions_node_spec P gmc to_sec from_latlon cls stream Hcls)
      as (rows & Hrun & Hrows).
    { rewrite Hvalid. intros r []. }
    rewrite Hvalid in Hrows. inversion Hrows; subst.
    rewrite Hrun. unfold Expected.skipped_fixes.
    rewrite filter_none_length by exact Hvalid. rewrite length_map. reflexivity.
  - intros gmc arctan2 cls stream Hcls Hvalid.
    rewrite (imus_node_spec P to_sec arctan2 gmc cls stream Hcls).
    rewrite Hvalid. unfold Expected.skipped_imus.
    rewrite (filter_none_length
               (fun r => isnan (Quaternion.x (Imu.orientation r)))) by exact Hvalid.
    rewrite length_map. reflexivity.
  - intros gmc cls stream Hcls Hvalid.
    rewrite (navsatorients_node_spec P to_sec gmc cls stream Hcls).
    rewrite Hvalid. unfold Expected.skipped_orients.
    rewrite (filter_none_length (fun r => isnan (NavSatOrientation.yaw r)))
      by exact Hvalid.
    rewrite length_map. reflexivity.
Qed.

Lemma extractors_push_empty_aggregate_witness :
  positions _ (Sample.registry "sensor_msgs/NavSatFix" Sample.navsatfix_class)
                           Sample.to_sec Sample.banded_projection Sample.nan_fix_stream
  = ([SetHeader "/gnss"; Log Warn "skipped %d erroneous messages" [ArgInt 1];
      Push (mkAggregate [])], Done tt)
  /\ imus _ (Sample.registry "sensor_msgs/Imu" Sample.imu_class)
                    Sample.to_sec Sample.axis_arctan2 Sample.nan_imu_stream
     = ([SetHeader "/imu"; Log Warn "skipped %d erroneous messages" [ArgInt 1];
         Push (mkAggregate [])], Done tt)
  /\ navsatorients
       _ (Sample.registry "nmea_navsat_driver/NavSatOrientation" Sample.orientation_class)
       Sample.to_sec Sample.empty_orientation_stream
     = ([SetHeader "/orientation"; Push (mkAggregate [])], Done tt).
Proof.
  pose proof (extractors_push_empty_aggregate float binary64) as H.
  split; [|split].
  - apply (proj1 (H _ Sample.to_sec)
             (Sample.registry "sensor_msgs/NavSatFix" Sample.navsatfix_class)
             Sample.banded_projection Sample.navsatfix_class Sample.nan_fix_stream);
      reflexivity.
  - apply (proj1 (proj2 (H _ Sample.to_sec))
             (Sample.registry "sensor_msgs/Imu" Sample.imu_class)
             Sample.axis_arctan2 Sample.imu_class Sample.nan_imu_stream);
      reflexivity.
  - apply (proj1 (proj2 (proj2 (H _ Sample.to_sec)))
             (Sample.registry "nmea_navsat_driver/NavSatOrientation" Sample.orientation_class)
             Sample.orientation_class Sample.empty_orientation_stream);
      reflexivity.
Defined.

(** C10 as stated fails: on the empty stream of a message type that does
    not resolve, [navsatorients] ends with Abort and pushes nothing. *)
Lemma navsatorients_aborts_on_unresolved_empty_stream :
  messages Sample.empty_orientation_stream = []
  /\ result (navsatorients
               _ Sample.empty_registry Sample.to_sec Sample.empty_orientation_stream)
     = Aborted
  /\ pushed (trace (navsatorients
                      _ Sample.empty_registry Sample.to_sec
                      Sample.empty_orientation_stream)) = []
  /\ ~ (result (navsatorients
                  _ Sample.empty_registry Sample.to_sec Sample.empty_orientation_stream)
        = Done tt
        /\ pushed (trace (navsatorients
                            _ Sample.empty_registry Sample.to_sec
                            Sample.empty_orientation_stream))
           = [mkAggregate []]).
Proof.
  repeat split. intros [H _]. discriminate H.
Qed.

(** ** The plot composer *)

Lemma occurs_append (c : ascii) (a b : string) :
  Expected.occurs c (a ++ b) = Expected.occurs c a || Expected.occurs c b.
Proof.
  induction a as [|c' a IH]; cbn [String.append Expected.occurs orb]; [reflexivity|].
  rewrite IH. apply orb_assoc.
Qed.

Lemma occurs_replace (old new : ascii) (x : string) :
  Ascii.eqb new old = false -> Expected.occurs old (replace old new x) = false.
Proof.
  intros Hne. induction x as [|c x IH]; cbn [replace Expected.occurs]; [reflexivity|].
  rewrite IH, orb_false_r.
  destruct (Ascii.eqb c old) eqn:E; [exact Hne | exact E].
Qed.

Lemma occurs_drop_first (c : ascii) (x : string) :
  Expected.occurs c x = false -> Expected.occurs c (drop_first x) = false.
Proof.
  destruct x as [|c' x]; cbn [drop_first Expected.occurs]; [auto|].
  intros H. apply orb_false_iff in H. apply H.
Qed.

(** The artifact name has no path separator. *)
Lemma artifact_name_sanitized (gtitle otitle : string) :
  Expected.occurs "/" (artifact_name gtitle otitle) = false.
Proof.
  unfold artifact_name. cbn [List.map String.concat].
  rewrite !occurs_append.
  rewrite !occurs_drop_first by (apply occurs_replace; reflexivity).
  reflexivity.
Qed.

Section GnssPlotsProofs.
Context {F : Type} {ops : Float64 F}.
Variable store : string -> File.
Variable fromtimestamp : F -> option exn.

Lemma fromtimestamps_refused (stamps : list F) :
  fromtimestamps fromtimestamp stamps
  = ([], match Behaviour.refused fromtimestamp stamps with
         | Some e => Raised e
         | None => Done tt
         end).
Proof.
  induction stamps as [|x stamps IH]; cbn [fromtimestamps Behaviour.refused];
    [reflexivity|].
  destruct (fromtimestamp x); [reflexivity | exact IH].
Qed.

Lemma refused_app (a b : list F) :
  Behaviour.refused fromtimestamp (a ++ b)
  = match Behaviour.refused fromtimestamp a with
    | Some e => Some e
    | None => Behaviour.refused fromtimestamp b
    end.
Proof.
  induction a as [|x a IH]; cbn [app Behaviour.refused]; [reflexivity|].
  destruct (fromtimestamp x); [reflexivity | exact IH].
Qed.

(** The test [if orientation:] spares no conversion: an empty list has
    no stamp. *)
Lemma orientation_conversions (orows : list (Imus.Row F)) :
  match orows with
  | [] => ([], Done tt)
  | _ :: _ => fromtimestamps fromtimestamp (List.map Imus.r_stamp orows)
  end
  = fromtimestamps fromtimestamp (List.map Imus.r_stamp orows).
Proof. destruct orows; reflexivity. Qed.

(** The run of [gnss_plots] when the position stream has an item. *)
Lemma gnss_plots_run (gtitle : string) (agg : Aggregate (Positions.Row F))
  (aggs : list (Aggregate (Positions.Row F)))
  (others : list (Handle (Aggregate (Positions.Row F))))
  (orientation : list (Handle (Aggregate (Imus.Row F)))) :
  let otitle := Expected.orientation_title_or_none orientation in
  let warning : list (event File) :=
    match orientation with
    | stream :: _ =>
      match msgs stream with
      | _ :: _ => []
      | [] => [Log Warn "No orientations found" []]
      end
    | [] => [Log Warn "No orientations found" []]
    end in
  gnss_plots store fromtimestamp (mkHandle gtitle (agg :: aggs) :: others) orientation
  = match values agg with
    | [] =>
      (warning ++ [SetHeader (plot_title gtitle otitle);
                   MakeFile (artifact_name gtitle otitle)],
       Raised IndexError)
    | _ :: _ =>
      match Behaviour.refused fromtimestamp
                              (Behaviour.plot_stamps orientation (values agg)) with
      | Some e =>
        (warning ++ [SetHeader (plot_title gtitle otitle);
                     MakeFile (artifact_name gtitle otitle)],
         Raised e)
      | None =>
        (warning ++ [SetHeader (plot_title gtitle otitle);
                     MakeFile (artifact_name gtitle otitle);
                     Push (store (artifact_name gtitle otitle))],
         Done tt)
      end
    end.
Proof.
  unfold gnss_plots, Expected.orientation_title_or_none, Behaviour.plot_stamps,
    Behaviour.orientation_rows.
  cbn [hd_error pull msgs title subscript_values].
  destruct orientation as [|[otitle [|msg rest]] streams];
    cbn [hd_error pull msgs title fst snd]; gen_step;
    (destruct (values agg) as [|row rows]; [reflexivity|]);
    cbn [mask_finite]; gen_step;
    repeat first [ rewrite bind_ret_l | rewrite bind_done | progress cbv beta
                 | progress cbn [fst snd List.map] ];
    rewrite ?orientation_conversions, ?fromtimestamps_refused, ?refused_app;
    cbn [List.map app Behaviour.refused];
    repeat match goal with
    | |- context [Behaviour.refused fromtimestamp ?l] =>
      destruct (Behaviour.refused fromtimestamp l)
    end; reflexivity.
Qed.

End GnssPlotsProofs.

(** C5: without a position stream [gnss_plots] logs an error and ends
    with Abort.  With a position stream that has its item and without
    orientation (no orientation stream, or one without item) it logs the
    warning, takes ['none'] as the orientation title, sets the header and
    makes the file in every case.  When the position list is empty, as in
    the item [positions] pushes for a stream without valid fix, the run
    then ends with the [IndexError] of the column index on the array of
    an empty list, and no file is pushed.  Otherwise the stamps of the
    rows of finite latitude are converted, and the file is pushed unless
    a conversion raises. *)
Theorem gnss_plots_without_orientation :
  forall (F : Type) (ops : Float64 F) (store : string -> File)
         (fromtimestamp : F -> option exn),
    (forall orientation : list (Handle (Aggregate (Imus.Row F))),
       gnss_plots store fromtimestamp [] orientation
       = ([Log Error "No gps messages" []], Aborted))
    /\ (forall (gtitle : string) aggs others,
          let raised : Gen File unit :=
            ([Log Warn "No orientations found" [];
              SetHeader (plot_title gtitle "none");
              MakeFile (artifact_name gtitle "none")],
             Raised IndexError) in
          gnss_plots store fromtimestamp (mkHandle gtitle (mkAggregate [] :: aggs) :: others) []
          = raised
          /\ forall otitle streams,
               gnss_plots store fromtimestamp (mkHandle gtitle (mkAggregate [] :: aggs) :: others)
                          (mkHandle otitle [] :: streams)
               = raised)
    /\ (forall (gtitle : string) (row : Positions.Row F) rows aggs others,
          let gps := mkHandle gtitle (mkAggregate (row :: rows) :: aggs) :: others in
          let made : list (event File) :=
            [Log Warn "No orientations found" [];
             SetHeader (plot_title gtitle "none");
             MakeFile (artifact_name gtitle "none")] in
          let run : Gen File unit :=
            match Behaviour.refused fromtimestamp
                    (List.map Positions.r_stamp
                       (filter (fun r => isfinite (Positions.r_latitude r)) (row :: rows))) with
            | Some e => (made, Raised e)
            | None => (made ++ [Push (store (artifact_name gtitle "none"))], Done tt)
            end in
          gnss_plots store fromtimestamp gps [] = run
          /\ forall otitle streams,
               gnss_plots store fromtimestamp gps (mkHandle otitle [] :: streams) = run).
Proof.
  intros F ops store fromtimestamp. split; [reflexivity|]. split.
  - intros gtitle aggs others raised. split; [|intros otitle streams];
      rewrite gnss_plots_run; reflexivity.
  - intros gtitle row rows aggs others gps made run. unfold gps, run, made.
    split; [|intros otitle streams]; rewrite gnss_plots_run;
      cbn [values]; unfold Behaviour.plot_stamps; cbn [Behaviour.orientation_rows msgs List.map app];
      match goal with
      | |- context [Behaviour.refused fromtimestamp ?l] =>
        destruct (Behaviour.refused fromtimestamp l)
      end; reflexivity.
Qed.

(** C8: when the position stream has its item, the name of the file
    [gnss_plots] makes is [artifact_name] of the position title and of the
    orientation title (['none'] without orientation), and the header
    title is the position title, [" with "] and that orientation title.
    Two runs with the same titles make files of the same name, whatever
    their data and file stores are, and the name has no path separator. *)
Theorem gnss_plots_name_is_function_of_titles :
  forall (F : Type) (ops : Float64 F),
    (forall (store : string -> File) (fromtimestamp : F -> option exn) (gtitle : string)
            (agg : Aggregate (Positions.Row F)) aggs others
            (orientation : list (Handle (Aggregate (Imus.Row F)))),
        let run :=
          gnss_plots store fromtimestamp (mkHandle gtitle (agg :: aggs) :: others)
                     orientation in
        files_made (trace run)
        = [artifact_name gtitle (Expected.orientation_title_or_none orientation)]
        /\ headers (trace run)
           = [(gtitle ++ " with " ++ Expected.orientation_title_or_none orientation)%string])
    /\ (forall (store1 store2 : string -> File) (fromtimestamp1 fromtimestamp2 : F -> option exn)
               (gtitle : string)
               (agg1 agg2 : Aggregate (Positions.Row F)) aggs1 aggs2 others1 others2
               (orientation1 orientation2 : list (Handle (Aggregate (Imus.Row F)))),
           Expected.orientation_title_or_none orientation1
           = Expected.orientation_title_or_none orientation2 ->
           let run1 :=
             gnss_plots store1 fromtimestamp1 (mkHandle gtitle (agg1 :: aggs1) :: others1)
                        orientation1 in
           let run2 :=
             gnss_plots store2 fromtimestamp2 (mkHandle gtitle (agg2 :: aggs2) :: others2)
                        orientation2 in
           files_made (trace run1) = files_made (trace run2)
           /\ headers (trace run1) = headers (trace run2))
    /\ (forall gtitle otitle : string,
           Expected.occurs "/" (artifact_name gtitle otitle) = false).
Proof.
  intros F ops.
  assert (H : forall (store : string -> File) (fromtimestamp : F -> option exn)
                     (gtitle : string)
                     (agg : Aggregate (Positions.Row F)) aggs others
                     (orientation : list (Handle (Aggregate (Imus.Row F)))),
             files_made (trace (gnss_plots store fromtimestamp
                                           (mkHandle gtitle (agg :: aggs) :: others)
                                           orientation))
             = [artifact_name gtitle (Expected.orientation_title_or_none orientation)]
             /\ headers (trace (gnss_plots store fromtimestamp
                                           (mkHandle gtitle (agg :: aggs) :: others)
                                           orientation))
                = [(gtitle ++ " with " ++ Expected.orientation_title_or_none orientation)%string]).
  { intros store fromtimestamp gtitle agg aggs others orientation. rewrite gnss_plots_run.
    destruct (values agg) as [|row rows];
      [|destruct (Behaviour.refused fromtimestamp
                    (Behaviour.plot_stamps orientation (row :: rows)))];
      destruct orientation as [|[otitle [|msg rest]] streams]; split; reflexivity. }
  split; [exact H|]. split; [|exact artifact_name_sanitized].
  intros store1 store2 ft1 ft2 gtitle agg1 agg2 aggs1 aggs2 others1 others2 o1 o2 Ho run1 run2.
  unfold run1, run2.
  destruct (H store1 ft1 gtitle agg1 aggs1 others1 o1) as [-> ->].
  destruct (H store2 ft2 gtitle agg2 aggs2 others2 o2) as [-> ->].
  rewrite Ho. split; reflexivity.
Qed.

Lemma gnss_plots_name_is_function_of_titles_witness :
  files_made (trace (gnss_plots Sample.store Sample.fromtimestamp Sample.gps_a Sample.imu_a))
  = files_made (trace (gnss_plots (fun name => mkFile name name) (fun _ => None)
                                  Sample.gps_b Sample.imu_b))
  /\ headers (trace (gnss_plots Sample.store Sample.fromtimestamp Sample.gps_a Sample.imu_a))
     = headers (trace (gnss_plots (fun name => mkFile name name) (fun _ => None)
                                  Sample.gps_b Sample.imu_b)).
Proof.
  apply (proj1 (proj2 (gnss_plots_name_is_function_of_titles float binary64))
           Sample.store (fun name => mkFile name name) Sample.fromtimestamp (fun _ => None)
           "/gnss"
           (mkAggregate [Sample.row_a]) (mkAggregate [Sample.row_a; Sample.row_b])
           [] [] [] [] Sample.imu_a Sample.imu_b).
  reflexivity.
Defined.

(** ** The section assemblers *)

Import Detail.

Lemma insert_by_title_perm {M} (h : Handle M) (l : list (Handle M)) :
  Permutation (insert_by_title h l) (h :: l).
Proof.
  induction l as [|h' l IH]; cbn [insert_by_title]; [reflexivity|].
  destruct (String.leb (title h) (title h')); [reflexivity|].
  rewrite IH. apply perm_swap.
Qed.

Lemma sorted_by_title_perm {M} (l : list (Handle M)) :
  Permutation (sorted_by_title l) l.
Proof.
  induction l as [|h l IH]; cbn; [reflexivity|].
  rewrite insert_by_title_perm. now constructor.
Qed.

Lemma sorted_by_title_nil {M} (l : list (Handle M)) :
  sorted_by_title l = [] -> l = [].
Proof.
  intros H. apply Permutation_nil. rewrite <- H. apply sorted_by_title_perm.
Qed.

Lemma nodup_length_le {A} (dec : forall x y : A, {x = y} + {x <> y}) (l : list A) :
  (List.length (nodup dec l) <= List.length l)%nat.
Proof.
  induction l as [|a l IH]; cbn [nodup List.length]; [lia|].
  destruct (in_dec dec a l); cbn [List.length]; lia.
Qed.

Lemma nodup_length_NoDup {A} (dec : forall x y : A, {x = y} + {x <> y}) (l : list A) :
  List.length (nodup dec l) = List.length l <-> NoDup l.
Proof.
  split.
  - induction l as [|a l IH]; cbn [nodup List.length]; [constructor|].
    pose proof (nodup_length_le dec l) as Hle.
    destruct (in_dec dec a l) as [Hin|Hnin]; cbn [List.length]; intros H; [lia|].
    constructor; [exact Hnin | apply IH; lia].
  - intros H. now rewrite nodup_fixed_point.
Qed.

Lemma assert_unique_titles_spec {I} (titles : list string) :
  (NoDup titles /\ assert_unique_titles (I := I) titles = ([], Done tt))
  \/ (~ NoDup titles /\ assert_unique_titles (I := I) titles = ([], Raised AssertionError)).
Proof.
  unfold assert_unique_titles.
  destruct (Nat.eqb_spec (List.length (nodup string_dec titles)) (List.length titles)) as [E|E].
  - left. split; [now apply (nodup_length_NoDup string_dec)|reflexivity].
  - right. split; [|reflexivity]. intros H. apply E. now apply nodup_length_NoDup.
Qed.

Lemma video_widgets_spec (vs : list (Handle File)) :
  (exists ws, video_widgets (combine vs (pull_all vs)) = ([], Done ws)
              /\ List.map fst ws = List.map title vs)
  \/ video_widgets (combine vs (pull_all vs)) = ([], Raised AttributeError).
Proof.
  induction vs as [|v vs IH]; cbn [pull_all List.map combine video_widgets].
  - left. exists []. split; reflexivity.
  - destruct (pull v) as [f|]; [|right; reflexivity].
    fold (pull_all vs).
    destruct IH as [(ws & -> & Hws) | ->].
    + left. exists ((title v, relpath f) :: ws). split; [reflexivity|].
      cbn. now rewrite Hws.
    + right. reflexivity.
Qed.


(** The four ways a run of [video_section] can end. *)
Lemma video_section_run (videos : list (Handle File)) (title : string) :
  videos = [] /\ video_section videos title = ([], Aborted)
  \/ videos <> [] /\ video_section videos title = ([], Raised AttributeError)
  \/ videos <> [] /\ ~ NoDup (List.map Marv.title videos)
     /\ video_section videos title = ([], Raised AssertionError)
  \/ exists w ws,
       NoDup (List.map fst (w :: ws))
       /\ List.map fst (w :: ws) = List.map Marv.title (sorted_by_title videos)
       /\ video_section videos title
          = ([Push (mkSection title (List.map video_widget (w :: ws)))], Done tt).
Proof.
  unfold video_section.
  destruct (sorted_by_title videos) as [|v vs] eqn:Hs.
  - left. split; [now apply sorted_by_title_nil | reflexivity].
  - right.
    assert (Hne : videos <> []) by (intros ->; discriminate Hs).
    destruct (video_widgets_spec (v :: vs)) as [(ws & Hw & Ht) | Hw]; rewrite Hw.
    + right. gen_step.
      destruct (assert_unique_titles_spec (I := Section) (List.map fst ws)) as [[Hnd Ha]|[Hnd Ha]];
        rewrite Ha.
      * right. destruct ws as [|w ws]; [discriminate Ht|].
        exists w, ws. repeat split; auto.
      * left. repeat split; auto.
        intros H. apply Hnd. rewrite Ht, <- Hs.
        apply (Permutation_NoDup (l := List.map Marv.title videos)); [|exact H].
        apply Permutation_map. symmetry. apply sorted_by_title_perm.
    + left. split; [exact Hne | reflexivity].
Qed.

Lemma gnss_section_run (plots : Handle File) (title : string) :
  gnss_section plots title
  = match pull plots with
    | Some plotfile =>
      ([Push (mkSection title
                [Some (mkWidget (Some (Marv.title plots)) (Image (relpath plotfile)))])],
       Done tt)
    | None => ([], Done tt)
    end.
Proof.
  unfold gnss_section. cbn [gnss_widgets].
  destruct (pull plots) as [plotfile|]; reflexivity.
Qed.

Lemma images_section_run (galleries : list (Handle Widget)) (title : string) :
  images_section galleries title
  = match sorted_by_title galleries with
    | [] => ([], Done tt)
    | g :: gs => ([Push (mkSection title (pull_all (g :: gs)))], Done tt)
    end.
Proof.
  unfold images_section. destruct (sorted_by_title galleries); reflexivity.
Qed.

(** C7: no assembler pushes a section with an empty widget list.
    [gnss_section] without a plot file and [images_section] without a
    gallery return without a push; [trajectory_section] without a geojson
    object, or with an empty one, and [video_section] without a video end
    with Abort, without a push. *)
Theorem assemblers_push_no_empty_section :
  (forall (plots : Handle File) (title : string),
     Expected.never_pushes_empty (gnss_section plots title))
  /\ (forall (galleries : list (Handle Widget)) (title : string),
        Expected.never_pushes_empty (images_section galleries title))
  /\ (forall (D : Type) (bagmeta : Handle Bagmeta) (dataset : Handle D) (title : string),
        Expected.never_pushes_empty (topics_section bagmeta dataset title))
  /\ (forall (G : Type) (truthy : G -> bool) (store : string -> File)
             (geojson : Handle G) (title : string),
        Expected.never_pushes_empty (trajectory_section G truthy store geojson title))
  /\ (forall (videos : list (Handle File)) (title : string),
        Expected.never_pushes_empty (video_section videos title))
  /\ (forall ptitle title : string,
        gnss_section (mkHandle ptitle []) title = ([], Done tt))
  /\ (forall title : string, images_section [] title = ([], Done tt))
  /\ (forall (G : Type) (truthy : G -> bool) (store : string -> File)
             (gtitle title : string),
        trajectory_section G truthy store (mkHandle gtitle []) title = ([], Aborted))
  /\ (forall (G : Type) (truthy : G -> bool) (store : string -> File)
             (gtitle : string) (g : G) (rest : list G) (title : string),
        trajectory_section G truthy store (mkHandle gtitle (g :: rest)) title
        = if truthy g
          then ([MakeFile "data.json";
                 Push (mkSection title
                         [Some (mkWidget None
                                  (MapPartial ("marv-partial:" ++ relpath (store "data.json"))))])],
                Done tt)
          else ([], Aborted))
  /\ (forall title : string, video_section [] title = ([], Aborted)).
Proof.
  unfold Expected.never_pushes_empty. repeat split.
  - intros plots title. rewrite gnss_section_run.
    destruct (pull plots); cbn; repeat constructor. discriminate.
  - intros gs title. rewrite images_section_run.
    destruct (sorted_by_title gs); cbn; repeat constructor. discriminate.
  - intros D bagmeta dataset title. unfold topics_section.
    destruct (pull bagmeta); cbn; repeat constructor. discriminate.
  - intros G truthy store geojson title. unfold trajectory_section.
    destruct (pull geojson) as [g|]; [|constructor].
    destruct (truthy g); cbn; repeat constructor. discriminate.
  - intros videos title.
    destruct (video_section_run videos title)
      as [[_ ->] | [[_ ->] | [(_ & _ & ->) | (w & ws & _ & _ & ->)]]];
      cbn; repeat constructor. discriminate.
  - intros G truthy store gtitle g rest title. unfold trajectory_section.
    cbn [pull msgs hd_error]. destruct (truthy g); reflexivity.
Qed.

Lemma video_widgets_all (vs : list (Handle File)) :
  forallb Behaviour.has_item vs = true ->
  exists ws,
    video_widgets (combine vs (pull_all vs)) = ([], Done ws)
    /\ List.map video_widget ws = List.map Behaviour.video_widget_of vs
    /\ List.map fst ws = List.map title vs.
Proof.
  induction vs as [|v vs IH]; cbn [forallb pull_all List.map combine video_widgets];
    intros H.
  - exists []. repeat split.
  - apply andb_true_iff in H. destruct H as [Hv Hvs].
    unfold Behaviour.has_item in Hv. unfold pull at 1.
    destruct (msgs v) as [|f fs] eqn:Hm; [discriminate|]. cbn [hd_error].
    fold (pull_all vs). destruct (IH Hvs) as (ws & -> & Hw & Ht).
    exists ((title v, relpath f) :: ws). gen_step. split; [reflexivity|].
    cbn [List.map fst]. rewrite Hw, Ht. unfold Behaviour.video_widget_of at 2.
    rewrite Hm. repeat split.
Qed.

Lemma video_widgets_missing (vs : list (Handle File)) :
  forallb Behaviour.has_item vs = false ->
  video_widgets (combine vs (pull_all vs)) = ([], Raised AttributeError).
Proof.
  induction vs as [|v vs IH]; cbn [forallb pull_all List.map combine video_widgets];
    intros H; [discriminate|].
  unfold pull at 1. unfold Behaviour.has_item in H.
  destruct (msgs v) as [|f fs]; [reflexivity|]. cbn [hd_error andb] in *.
  fold (pull_all vs). rewrite (IH H). reflexivity.
Qed.

Lemma forallb_perm {A : Type} (f : A -> bool) (l l' : list A) :
  Permutation l l' -> forallb f l = forallb f l'.
Proof.
  induction 1; cbn; try congruence.
  - destruct (f x), (f y); reflexivity.
Qed.






(** * Further properties *)

Section PositionsReference.
Context {F : Type} {ops : Float64 F}.
Variable P : Type.
Variable to_sec : Time -> F.
Variable from_latlon : F -> F -> option (F * F * Z * string).
Variable cls : msg_class P (NavSatFix.t F).

Lemma valid_fix_has_status (r : NavSatFix.t F) :
  Expected.skipped_fix r = false -> exists s, NavSatFix.status r = Some s.
Proof.
  unfold Expected.skipped_fix. destruct (NavSatFix.status r); [eauto | discriminate].
Qed.

(** Once the origin is set, the loop builds the rows seen from it. *)
Lemma loop_from_origin (e0 n0 u0 : F) (pending : list P) :
  forall st : Positions.state F,
    Positions.e_offset st = Some e0 ->
    Positions.n_offset st = Some n0 ->
    Positions.u_offset st = Some u0 ->
    positions_loop P to_sec from_latlon cls pending st
    = match Behaviour.rows_from to_sec from_latlon e0 n0 u0
              (Expected.valid_fixes P cls pending) with
      | Some rows =>
        ([], Done (Positions.mkState
                     (Positions.erroneous st + Expected.skipped_fixes P cls pending)
                     (Some e0) (Some n0) (Some u0) (Positions.positions st ++ rows)))
      | None => ([], Raised OutOfRangeError)
      end.
Proof.
  induction pending as [|msg rest IH]; intros st He Hn Hu.
  - cbn. rewrite Nat.add_0_r, app_nil_r. destruct st; cbn in *. now subst.
  - cbn [positions_loop]. unfold Expected.valid_fixes, Expected.skipped_fixes in *.
    cbn [List.map filter].
    destruct (Expected.skipped_fix (deserialize cls msg)) eqn:Herr; cbn [negb].
    + rewrite (body_skips P to_sec from_latlon cls st msg Herr), bind_ret_l.
      rewrite (IH (Positions.mkState (S (Positions.erroneous st))
                                     (Positions.e_offset st) (Positions.n_offset st)
                                     (Positions.u_offset st) (Positions.positions st))
                  He Hn Hu).
      cbn [Positions.erroneous Positions.positions List.length].
      destruct (Behaviour.rows_from _ _ _ _ _ _); [|reflexivity].
      do 3 f_equal. lia.
    + destruct (valid_fix_has_status _ Herr) as [s Hs].
      unfold positions_body. rewrite is_erroneous_skipped_fix, Herr. cbv iota.
      cbn [Behaviour.rows_from]. unfold Behaviour.row_from, Behaviour.projected.
      destruct (from_latlon _ _) as [[[[e n] zn] zl]|]; [|reflexivity].
      rewrite Hs, He. cbn [minus]. rewrite He, Hn, Hu. cbn [minus]. gen_step.
      rewrite IH by reflexivity. cbn [Positions.erroneous Positions.positions].
      destruct (Behaviour.rows_from _ _ _ _ _ _); [|reflexivity].
      now rewrite <- app_assoc.
Qed.

Lemma loop_refines_reference (pending : list P) :
  forall st : Positions.state F,
    Positions.e_offset st = None ->
    match Behaviour.reference_rows to_sec from_latlon (Expected.valid_fixes P cls pending) with
    | Some rows =>
      exists st',
        positions_loop P to_sec from_latlon cls pending st = ([], Done st')
        /\ Positions.erroneous st'
           = (Positions.erroneous st + Expected.skipped_fixes P cls pending)%nat
        /\ Positions.positions st' = Positions.positions st ++ rows
    | None =>
      positions_loop P to_sec from_latlon cls pending st = ([], Raised OutOfRangeError)
    end.
Proof.
  induction pending as [|msg rest IH]; intros st He.
  - cbn. exists st. rewrite Nat.add_0_r, app_nil_r. auto.
  - cbn [positions_loop]. unfold Expected.valid_fixes, Expected.skipped_fixes in *.
    cbn [List.map filter].
    destruct (Expected.skipped_fix (deserialize cls msg)) eqn:Herr; cbn [negb].
    + rewrite (body_skips P to_sec from_latlon cls st msg Herr), bind_ret_l.
      specialize (IH (Positions.mkState (S (Positions.erroneous st))
                                        (Positions.e_offset st) (Positions.n_offset st)
                                        (Positions.u_offset st) (Positions.positions st)) He).
      destruct (Behaviour.reference_rows _ _ _); [|exact IH].
      destruct IH as (st' & Hl & Hc & Hp). exists st'.
      cbn in Hc, Hp. cbn [List.length]. repeat split; auto. lia.
    + destruct (valid_fix_has_status _ Herr) as [s Hs].
      unfold positions_body. rewrite is_erroneous_skipped_fix, Herr. cbv iota.
      unfold Behaviour.reference_rows. cbn [Behaviour.rows_from].
      unfold Behaviour.row_from, Behaviour.projected.
      destruct (from_latlon _ _) as [[[[e n] zn] zl]|]; [|reflexivity].
      rewrite Hs, He. cbn [minus Positions.e_offset Positions.n_offset Positions.u_offset].
      gen_step.
      rewrite (loop_from_origin e n (NavSatFix.altitude (deserialize cls msg))) by reflexivity.
      cbn [Positions.erroneous Positions.positions].
      fold (Expected.valid_fixes P cls rest).
      destruct (Behaviour.rows_from _ _ _ _ _ _); [|reflexivity].
      eexists. split; [reflexivity|]. cbn. split; [reflexivity|].
      now rewrite <- app_assoc.
Qed.

Lemma positions_refines_reference
  (get_message_class : string -> option (msg_class P (NavSatFix.t F)))
  (stream : Stream P) :
  get_message_class (msg_type stream) = Some cls ->
  positions P get_message_class to_sec from_latlon stream
  = match Behaviour.reference_rows to_sec from_latlon
            (Expected.valid_fixes P cls (messages stream)) with
    | Some rows =>
      (SetHeader (topic stream)
         :: Expected.skip_warning (Expected.skipped_fixes P cls (messages stream))
         ++ [Push (mkAggregate rows)], Done tt)
    | None => ([SetHeader (topic stream)], Raised OutOfRangeError)
    end.
Proof.
  intros Hcls. unfold positions. rewrite Hcls. cbn [instantiate]. gen_step.
  pose proof (loop_refines_reference (messages stream) positions_init eq_refl) as H.
  destruct (Behaviour.reference_rows _ _ _) as [rows|].
  - destruct H as (st' & -> & Hc & Hp). gen_step. cbn in Hc, Hp. rewrite Hc, Hp.
    unfold Expected.skip_warning.
    destruct (0 <? Expected.skipped_fixes P cls (messages stream))%nat; reflexivity.
  - rewrite H. reflexivity.
Qed.
End PositionsReference.

Section PositionsExtras.
Context {F : Type} {ops : Float64 F}.
Variable P : Type.
Variable to_sec : Time -> F.
Variable from_latlon : F -> F -> option (F * F * Z * string).

Lemma rows_from_fails (e0 n0 u0 : F) (fixes : list (NavSatFix.t F)) (r : NavSatFix.t F) :
  In r fixes -> Behaviour.projected from_latlon r = None ->
  Behaviour.rows_from to_sec from_latlon e0 n0 u0 fixes = None.
Proof.
  induction fixes as [|r' rest IH]; intros Hin Hr; [destruct Hin|].
  cbn [Behaviour.rows_from]. destruct Hin as [-> | Hin].
  - unfold Behaviour.row_from. rewrite Hr. reflexivity.
  - rewrite (IH Hin Hr). destruct (Behaviour.row_from _ _ _ _ _ _); reflexivity.
Qed.

Lemma reference_rows_fails (fixes : list (NavSatFix.t F)) (r : NavSatFix.t F) :
  In r fixes -> Behaviour.projected from_latlon r = None ->
  Behaviour.reference_rows to_sec from_latlon fixes = None.
Proof.
  intros Hin Hr. unfold Behaviour.reference_rows.
  destruct fixes as [|r0 rest]; [destruct Hin|].
  destruct (Behaviour.projected from_latlon r0) as [[e0 n0]|]; [|reflexivity].
  now apply rows_from_fails with (r := r).
Qed.

Lemma rows_from_copy (e0 n0 u0 : F) (fixes : list (NavSatFix.t F)) :
  forall rows, Behaviour.rows_from to_sec from_latlon e0 n0 u0 fixes = Some rows ->
    List.map Positions.r_latitude rows = List.map NavSatFix.latitude fixes
    /\ List.map Positions.r_longitude rows = List.map NavSatFix.longitude fixes
    /\ List.map Positions.r_altitude rows = List.map NavSatFix.altitude fixes.
Proof.
  induction fixes as [|r rest IH]; cbn [Behaviour.rows_from]; intros rows H.
  - inversion H. repeat split.
  - unfold Behaviour.row_from in H.
    destruct (Behaviour.projected from_latlon r) as [[e n]|]; [|discriminate].
    destruct (NavSatFix.status r) as [s|]; [|discriminate].
    destruct (Behaviour.rows_from to_sec from_latlon e0 n0 u0 rest) as [rows'|];
      [|discriminate].
    inversion H; subst. destruct (IH rows' eq_refl) as (Hlat & Hlon & Halt).
    cbn. rewrite Hlat, Hlon, Halt. repeat split.
Qed.

Lemma valid_fixes_not_nan (cls : msg_class P (NavSatFix.t F)) (msgs : list P) :
  Forall (fun r => isnan (NavSatFix.latitude r) = false
                   /\ isnan (NavSatFix.longitude r) = false
                   /\ isnan (NavSatFix.altitude r) = false)
         (Expected.valid_fixes P cls msgs).
Proof.
  unfold Expected.valid_fixes. apply Forall_forall. intros r Hr.
  apply filter_In in Hr. destruct Hr as [_ Hr]. apply negb_true_iff in Hr.
  unfold Expected.skipped_fix in Hr. destruct (NavSatFix.status r); [|discriminate].
  apply orb_false_iff in Hr. destruct Hr as [Hr Halt].
  apply orb_false_iff in Hr. destruct Hr as [Hlat Hlon]. auto.
Qed.
End PositionsExtras.

(** X1: when the message type resolves, [positions] pushes exactly the
    rows of the valid fixes seen from the first valid fix: easting,
    northing and altitude of every row are those of its fix minus those
    of the first valid fix; if the projection raises on a valid fix the
    run ends with [OutOfRangeError] after the header. *)
Theorem positions_rows_seen_from_first_fix :
  forall (F : Type) (ops : Float64 F) (P : Type)
         (get_message_class : string -> option (msg_class P (NavSatFix.t F)))
         (to_sec : Time -> F) (from_latlon : F -> F -> option (F * F * Z * string))
         (stream : Stream P) (cls : msg_class P (NavSatFix.t F)),
    get_message_class (msg_type stream) = Some cls ->
    positions P get_message_class to_sec from_latlon stream
    = match Behaviour.reference_rows to_sec from_latlon
              (Expected.valid_fixes P cls (messages stream)) with
      | Some rows =>
        (SetHeader (topic stream)
           :: Expected.skip_warning (Expected.skipped_fixes P cls (messages stream))
           ++ [Push (mkAggregate rows)], Done tt)
      | None => ([SetHeader (topic stream)], Raised OutOfRangeError)
      end.
Proof.
  intros. now apply positions_refines_reference.
Qed.

(** X2: if the projection raises on one valid fix of the stream,
    [positions] ends with [OutOfRangeError] having only set the header:
    the rows of the earlier fixes are not pushed and the skipped messages
    are not reported. *)
Theorem positions_projection_failure_loses_all :
  forall (F : Type) (ops : Float64 F) (P : Type)
         (get_message_class : string -> option (msg_class P (NavSatFix.t F)))
         (to_sec : Time -> F) (from_latlon : F -> F -> option (F * F * Z * string))
         (stream : Stream P) (cls : msg_class P (NavSatFix.t F)) (r : NavSatFix.t F),
    get_message_class (msg_type stream) = Some cls ->
    In r (Expected.valid_fixes P cls (messages stream)) ->
    from_latlon (NavSatFix.longitude r) (NavSatFix.latitude r) = None ->
    positions P get_message_class to_sec from_latlon stream
    = ([SetHeader (topic stream)], Raised OutOfRangeError).
Proof.
  intros F ops P gmc to_sec from_latlon stream cls r Hcls Hin Hr.
  rewrite (positions_refines_reference P to_sec from_latlon cls gmc stream Hcls).
  rewrite (reference_rows_fails to_sec from_latlon _ r Hin); [reflexivity|].
  unfold Behaviour.projected. now rewrite Hr.
Qed.

(** X3: in every aggregate [positions] pushes, latitude, longitude and
    altitude of every row are numbers. *)
Theorem positions_rows_are_numbers :
  forall (F : Type) (ops : Float64 F) (P : Type)
         (get_message_class : string -> option (msg_class P (NavSatFix.t F)))
         (to_sec : Time -> F) (from_latlon : F -> F -> option (F * F * Z * string))
         (stream : Stream P) (agg : Aggregate (Positions.Row F)),
    In agg (pushed (trace (positions P get_message_class to_sec from_latlon stream))) ->
    Forall (fun row => isnan (Positions.r_latitude row) = false
                       /\ isnan (Positions.r_longitude row) = false
                       /\ isnan (Positions.r_altitude row) = false)
           (values agg).
Proof.
  intros F ops P gmc to_sec from_latlon stream agg Hin.
  destruct (gmc (msg_type stream)) as [cls|] eqn:Hcls.
  - rewrite (positions_refines_reference P to_sec from_latlon cls gmc stream Hcls) in Hin.
    pose proof (valid_fixes_not_nan P cls (messages stream)) as Hv.
    remember (Expected.valid_fixes P cls (messages stream)) as valid eqn:Hvalid.
    destruct (Behaviour.reference_rows to_sec from_latlon valid) as [rows|] eqn:Href;
      [|destruct Hin].
    assert (Hagg : agg = mkAggregate rows).
    { unfold Expected.skip_warning in Hin.
      destruct (0 <? _)%nat; cbn in Hin; destruct Hin as [H|[]]; now subst. }
    subst agg. cbn [values].
    assert (Hcopy : List.map Positions.r_latitude rows = List.map NavSatFix.latitude valid
                    /\ List.map Positions.r_longitude rows
                       = List.map NavSatFix.longitude valid
                    /\ List.map Positions.r_altitude rows
                       = List.map NavSatFix.altitude valid).
    { unfold Behaviour.reference_rows in Href. destruct valid as [|r0 rest].
      - inversion Href. repeat split.
      - destruct (Behaviour.projected from_latlon r0) as [[e0 n0]|]; [|discriminate].
        eapply rows_from_copy. exact Href. }
    clear Href Hvalid Hin. revert valid Hcopy Hv.
    induction rows as [|row rows IH]; intros [|r rest] (Hlat & Hlon & Halt) Hv;
      try discriminate; constructor;
      inversion Hv as [|? ? (Nlat & Nlon & Nalt) Hrest]; subst;
      cbn [List.map] in Hlat, Hlon, Halt;
      injection Hlat as Elat Hlat; injection Hlon as Elon Hlon;
      injection Halt as Ealt Halt.
    + rewrite Elat, Elon, Ealt. auto.
    + apply (IH rest); auto.
  - unfold positions in Hin. rewrite Hcls in Hin. destruct Hin.
Qed.

(** X4: [imus] ends with a [TypeError] after the header when the message
    type does not resolve; otherwise it pushes one aggregate with the row
    [[stamp, yaw_angle(orientation)]] of every message whose orientation
    has a number as x, in order, after one warning with the number of the
    other messages if there are any.  Only x is tested. *)
Theorem imus_rows_and_count :
  forall (F : Type) (ops : Float64 F) (P : Type)
         (get_message_class : string -> option (msg_class P (Imu.t F)))
         (to_sec : Time -> F) (arctan2 : F -> F -> F) (stream : Stream P),
    imus P get_message_class to_sec arctan2 stream
    = match get_message_class (msg_type stream) with
      | Some cls =>
        (SetHeader (topic stream)
           :: Expected.skip_warning (Expected.skipped_imus P cls (messages stream))
           ++ [Push (mkAggregate
                       (List.map (Expected.imu_row to_sec arctan2)
                                 (Expected.valid_imus P cls (messages stream))))],
         Done tt)
      | None => ([SetHeader (topic stream)], Raised TypeError)
      end.
Proof.
  intros F ops P gmc to_sec arctan2 stream.
  destruct (gmc (msg_type stream)) as [cls|] eqn:Hcls.
  - now apply imus_node_spec.
  - unfold imus. rewrite Hcls. reflexivity.
Qed.

(** X5: [navsatorients] logs an error and ends with Abort when the
    message type does not resolve; otherwise it pushes one aggregate with
    the row [[stamp, yaw]] of every message whose yaw is a number, in
    order, after one warning with the number of the other messages if
    there are any. *)
Theorem navsatorients_rows_and_count :
  forall (F : Type) (ops : Float64 F) (P : Type)
         (get_message_class : string -> option (msg_class P (NavSatOrientation.t F)))
         (to_sec : Time -> F) (stream : Stream P),
    navsatorients P get_message_class to_sec stream
    = match get_message_class (msg_type stream) with
      | Some cls =>
        (SetHeader (topic stream)
           :: Expected.skip_warning (Expected.skipped_orients P cls (messages stream))
           ++ [Push (mkAggregate
                       (List.map (Expected.orient_row to_sec)
                                 (Expected.valid_orients P cls (messages stream))))],
         Done tt)
      | None =>
        ([SetHeader (topic stream);
          Log Error "Message definition for %r not available" [ArgStr (msg_type stream)]],
         Aborted)
      end.
Proof.
  intros F ops P gmc to_sec stream.
  destruct (gmc (msg_type stream)) as [cls|] eqn:Hcls.
  - now apply navsatorients_node_spec.
  - unfold navsatorients. rewrite Hcls. reflexivity.
Qed.

Lemma header_before_output_tail {I : Type} (title : string) (n : nat) (item : I) :
  Behaviour.header_before_output title (SetHeader title :: Expected.skip_warning n ++ [Push item]).
Proof.
  eexists. split; [reflexivity|]. unfold Expected.skip_warning.
  destruct (0 <? n)%nat; reflexivity.
Qed.

(** X6: whatever the stream and however the run ends, [positions],
    [imus] and [navsatorients] set the header to the topic of the stream
    exactly once, and before they push or log anything.  (The logger
    that [navsatorients] asks for ahead of the header is written to
    after it.) *)
Theorem extractors_set_header_before_output :
  forall (F : Type) (ops : Float64 F) (P : Type) (to_sec : Time -> F) (stream : Stream P),
    (forall (get_message_class : string -> option (msg_class P (NavSatFix.t F)))
            (from_latlon : F -> F -> option (F * F * Z * string)),
        Behaviour.header_before_output (topic stream)
          (trace (positions P get_message_class to_sec from_latlon stream)))
    /\ (forall (get_message_class : string -> option (msg_class P (Imu.t F)))
               (arctan2 : F -> F -> F),
           Behaviour.header_before_output (topic stream)
             (trace (imus P get_message_class to_sec arctan2 stream)))
    /\ (forall (get_message_class : string -> option (msg_class P (NavSatOrientation.t F))),
           Behaviour.header_before_output (topic stream)
             (trace (navsatorients P get_message_class to_sec stream))).
Proof.
  intros F ops P to_sec stream. repeat split.
  - intros gmc from_latlon. destruct (gmc (msg_type stream)) as [cls|] eqn:Hcls.
    + rewrite (positions_refines_reference P to_sec from_latlon cls gmc stream Hcls).
      destruct (Behaviour.reference_rows _ _ _); cbn [trace fst].
      * apply header_before_output_tail.
      * eexists. split; reflexivity.
    + unfold positions. rewrite Hcls. eexists. split; reflexivity.
  - intros gmc arctan2. destruct (gmc (msg_type stream)) as [cls|] eqn:Hcls.
    + rewrite (imus_node_spec P to_sec arctan2 gmc cls stream Hcls). apply header_before_output_tail.
    + unfold imus. rewrite Hcls. eexists. split; reflexivity.
  - intros gmc. destruct (gmc (msg_type stream)) as [cls|] eqn:Hcls.
    + rewrite (navsatorients_node_spec P to_sec gmc cls stream Hcls). apply header_before_output_tail.
    + unfold navsatorients. rewrite Hcls. eexists. split; reflexivity.
Qed.

(** ** More on the yaw angle *)

Section YawExtras.
Local Open Scope R_scope.

Lemma rot_qopp (q : Quaternion.t R) : rot (Behaviour.qopp q) = rot q.
Proof.
  destruct q as [a b c d]. unfold rot, Behaviour.qopp. cbn.
  repeat (f_equal; try ring).
Qed.

Lemma rotate_norm2 (q : Quaternion.t R) (v1 v2 v3 : R) :
  Behaviour.norm2 (Reference.rotate q [v1; v2; v3])
  = Reference.qnorm2 q * Reference.qnorm2 q * Behaviour.norm2 [v1; v2; v3].
Proof.
  destruct q as [a b c d]. cbn. ring.
Qed.
End YawExtras.

(** X7: over the real numbers [yaw_angle] is the arctangent of
    2(xy + zw) and 1 - 2y^2 - 2z^2, and a quaternion and its negation
    have the same yaw angle. *)
Theorem yaw_angle_closed_form :
  forall q : Quaternion.t R,
    yaw_angle Ratan2 q
    = Ratan2 (2 * (Quaternion.x q * Quaternion.y q + Quaternion.z q * Quaternion.w q))%R
             (1 - 2 * Quaternion.y q * Quaternion.y q
                - 2 * Quaternion.z q * Quaternion.z q)%R
    /\ yaw_angle Ratan2 (Behaviour.qopp q) = yaw_angle Ratan2 q.
Proof.
  intros q. split.
  - unfold yaw_angle. change [of_int 1; of_int 0; of_int 0] with [1; 0; 0]%R.
    rewrite dot_unit_x. reflexivity.
  - unfold yaw_angle. now rewrite rot_qopp.
Qed.

(** X8: for a unit quaternion the matrix [rot] keeps the length of every
    vector. *)
Theorem rot_preserves_length :
  forall (q : Quaternion.t R) (v1 v2 v3 : R),
    Reference.qnorm2 q = 1%R ->
    Behaviour.norm2 (dot (rot q) [v1; v2; v3]) = Behaviour.norm2 [v1; v2; v3].
Proof.
  intros q v1 v2 v3 Hq. rewrite (rot_is_rotation q v1 v2 v3 Hq), rotate_norm2, Hq.
  ring.
Qed.

Section EulerYaw.
Local Open Scope R_scope.

Lemma Ratan2_scale (k y x : R) : 0 < k -> Ratan2 (k * y) (k * x) = Ratan2 y x.
Proof.
  intros Hk. unfold Ratan2.
  destruct (Rlt_dec 0 x) as [Hx|Hx].
  - destruct (Rlt_dec 0 (k * x)) as [_|Hn]; [|exfalso; apply Hn; nra].
    f_equal. field. lra.
  - destruct (Rlt_dec 0 (k * x)) as [Hp|_]; [exfalso; nra|].
    destruct (Rlt_dec x 0) as [Hx'|Hx'].
    + destruct (Rlt_dec (k * x) 0) as [_|Hn]; [|exfalso; apply Hn; nra].
      assert (E : k * y / (k * x) = y / x) by (field; lra). rewrite E.
      destruct (Rle_dec 0 y), (Rle_dec 0 (k * y)); try reflexivity; exfalso; nra.
    + destruct (Rlt_dec (k * x) 0) as [Hp|_]; [exfalso; nra|].
      destruct (Rlt_dec 0 y), (Rlt_dec 0 (k * y)); try reflexivity; try (exfalso; nra).
      destruct (Rlt_dec y 0), (Rlt_dec (k * y) 0); try reflexivity; exfalso; nra.
Qed.

Lemma euler_first_column (t p a : R) :
  let q := Behaviour.euler_quaternion t p a in
  (2 * (Quaternion.x q * Quaternion.y q + Quaternion.z q * Quaternion.w q)
   = cos p * sin t)
  /\ (1 - 2 * Quaternion.y q * Quaternion.y q - 2 * Quaternion.z q * Quaternion.z q
      = cos p * cos t).
Proof.
  cbv zeta. unfold Behaviour.euler_quaternion, Reference.yaw_quaternion,
    Behaviour.pitch_quaternion, Behaviour.roll_quaternion. cbn.
  assert (Hst : sin t = 2 * sin (t / 2) * cos (t / 2))
    by (replace t with (2 * (t / 2)) at 1 by field; apply sin_2a).
  assert (Hct : cos t = 1 - 2 * sin (t / 2) * sin (t / 2))
    by (replace t with (2 * (t / 2)) at 1 by field; apply cos_2a_sin).
  assert (Hcp : cos p = 1 - 2 * sin (p / 2) * sin (p / 2))
    by (replace p with (2 * (p / 2)) at 1 by field; apply cos_2a_sin).
  rewrite Hst, Hct, Hcp. clear Hst Hct Hcp.
  pose proof (sin2_cos2 (t / 2)) as Ht. pose proof (sin2_cos2 (p / 2)) as Hp.
  pose proof (sin2_cos2 (a / 2)) as Ha. unfold Rsqr in *.
  generalize dependent (sin (t / 2)). generalize dependent (cos (t / 2)).
  generalize dependent (sin (p / 2)). generalize dependent (cos (p / 2)).
  generalize dependent (sin (a / 2)). generalize dependent (cos (a / 2)).
  intros ca sa Ha cp sp Hp ct st Ht. split; nsatz.
Qed.

End EulerYaw.

(** X9: for the quaternion of a yaw [t], then a pitch [p], then a roll
    [a], with [t] in (-pi, pi] and the pitch short of a quarter turn
    (its cosine is positive), [yaw_angle] is [t]: pitch and roll do not
    change it. *)
Theorem yaw_angle_is_euler_yaw :
  forall t p a : R,
    (- PI < t <= PI)%R -> (0 < cos p)%R ->
    yaw_angle Ratan2 (Behaviour.euler_quaternion t p a) = t.
Proof.
  intros t p a Ht Hp. unfold yaw_angle.
  change [of_int 1; of_int 0; of_int 0] with [1; 0; 0]%R.
  rewrite dot_unit_x. cbn [nth].
  destruct (euler_first_column t p a) as [-> ->].
  rewrite Ratan2_scale by exact Hp. now apply Ratan2_sin_cos.
Qed.

Section PlotExtras.
Context {F : Type} {ops : Float64 F}.
Variable store : string -> File.
Variable fromtimestamp : F -> option exn.

Lemma gnss_plots_first_only
  (g : Handle (Aggregate (Positions.Row F))) gs
  (orientation : list (Handle (Aggregate (Imus.Row F)))) :
  gnss_plots store fromtimestamp (g :: gs) orientation
  = gnss_plots store fromtimestamp [g] (firstn 1 orientation).
Proof. destruct orientation; reflexivity. Qed.

End PlotExtras.

(** X10: fed with the output of [orientations], [gnss_plots] looks at
    the first position stream and at one orientation stream only: the
    first IMU stream if there is one, else the first stream of
    [navsatorients]. *)
Theorem gnss_plots_uses_first_streams :
  forall (F : Type) (ops : Float64 F) (store : string -> File)
         (fromtimestamp : F -> option exn)
         (g : Handle (Aggregate (Positions.Row F))) gs
         (imus navsatorients : list (Handle (Aggregate (Imus.Row F)))),
    gnss_plots store fromtimestamp (g :: gs)
               (pushed (trace (orientations _ imus navsatorients)))
    = gnss_plots store fromtimestamp [g]
                 (match imus with
                  | i :: _ => [i]
                  | [] => firstn 1 navsatorients
                  end).
Proof.
  intros F ops store fromtimestamp g gs imus navs.
  unfold orientations. rewrite forward_pushes, bind_done, forward_pushes.
  cbn [trace fst]. rewrite <- map_app, pushed_map_Push.
  rewrite gnss_plots_first_only. destruct imus; reflexivity.
Qed.


(** X11: [gnss_plots] ends with Abort without position stream, with a
    [TypeError] when the first position stream has no item, with an
    [IndexError] when its aggregate has no row, and with the exception of
    [datetime.fromtimestamp] on the first stamp it cannot convert, where
    the stamps of the orientation rows come before those of the position
    rows of finite latitude; it returns when every stamp is converted.
    It pushes the file it made exactly when it returns, and it makes at
    most one file. *)
Theorem gnss_plots_outcome_table :
  forall (F : Type) (ops : Float64 F) (store : string -> File)
         (fromtimestamp : F -> option exn)
         (gps : list (Handle (Aggregate (Positions.Row F))))
         (orientation : list (Handle (Aggregate (Imus.Row F)))),
    let run := gnss_plots store fromtimestamp gps orientation in
    result run
    = match gps with
      | [] => Aborted
      | g :: _ =>
        match msgs g with
        | [] => Raised TypeError
        | agg :: _ =>
          match values agg with
          | [] => Raised IndexError
          | _ :: _ =>
            match Behaviour.refused fromtimestamp
                    (Behaviour.plot_stamps orientation (values agg)) with
            | Some e => Raised e
            | None => Done tt
            end
          end
        end
      end
    /\ pushed (trace run)
       = match result run with
         | Done _ => List.map store (files_made (trace run))
         | _ => []
         end
    /\ (List.length (files_made (trace run)) <= 1)%nat.
Proof.
  intros F ops store fromtimestamp gps orientation run. unfold run.
  destruct gps as [|[gtitle [|agg aggs]] gs].
  - repeat split. cbn. lia.
  - repeat split. cbn. lia.
  - rewrite gnss_plots_run. cbn [msgs].
    destruct (values agg) as [|row rows];
      [|destruct (Behaviour.refused fromtimestamp
                    (Behaviour.plot_stamps orientation (row :: rows)))];
      destruct orientation as [|[otitle [|msg rest]] streams];
      repeat split; cbn; lia.
Qed.

(** X12: for a stream without valid fix (of a message type that
    resolves), the output stream of [positions] carries an empty
    aggregate, and [gnss_plots] on that stream ends with an [IndexError]
    and pushes no file. *)
Theorem no_valid_fix_breaks_plot :
  forall (F : Type) (ops : Float64 F) (P : Type)
         (get_message_class : string -> option (msg_class P (NavSatFix.t F)))
         (to_sec : Time -> F) (from_latlon : F -> F -> option (F * F * Z * string))
         (store : string -> File) (fromtimestamp : F -> option exn)
         (stream : Stream P) (cls : msg_class P (NavSatFix.t F))
         (orientation : list (Handle (Aggregate (Imus.Row F)))),
    get_message_class (msg_type stream) = Some cls ->
    Expected.valid_fixes P cls (messages stream) = [] ->
    Framework.output_stream (positions P get_message_class to_sec from_latlon stream)
    = Some (mkHandle (topic stream) [mkAggregate []])
    /\ result (gnss_plots store fromtimestamp [mkHandle (topic stream) [mkAggregate []]]
                          orientation)
       = Raised IndexError
    /\ pushed (trace (gnss_plots store fromtimestamp
                                 [mkHandle (topic stream) [mkAggregate []]]
                                 orientation)) = [].
Proof.
  intros F ops P gmc to_sec from_latlon store fromtimestamp stream cls orientation
         Hcls Hvalid.
  split.
  - rewrite (positions_refines_reference P to_sec from_latlon cls gmc stream Hcls).
    rewrite Hvalid. cbn [Behaviour.reference_rows]. unfold Expected.skip_warning.
    destruct (0 <? _)%nat; reflexivity.
  - rewrite gnss_plots_run. cbn [values].
    destruct orientation as [|[otitle [|msg rest]] streams]; split; reflexivity.
Qed.

Lemma replace_idempotent (old new : ascii) (x : string) :
  Ascii.eqb new old = false -> replace old new (replace old new x) = replace old new x.
Proof.
  intros Hne. induction x as [|c x IH]; cbn [replace]; [reflexivity|].
  rewrite IH. f_equal. destruct (Ascii.eqb c old) eqn:E.
  - now rewrite Hne.
  - now rewrite E.
Qed.

Lemma replace_tail (old new : ascii) (x : string) :
  drop_first (replace old new x) = replace old new (drop_first x).
Proof. destruct x; reflexivity. Qed.

Lemma length_replace (old new : ascii) (x : string) :
  String.length (replace old new x) = String.length x.
Proof. induction x as [|c x IH]; cbn; [reflexivity | now rewrite IH]. Qed.

Lemma length_drop_first (x : string) :
  String.length (drop_first x) = Nat.pred (String.length x).
Proof. destruct x; reflexivity. Qed.

Lemma length_append (a b : string) :
  String.length (a ++ b)%string = (String.length a + String.length b)%nat.
Proof. induction a as [|c a IH]; cbn; [reflexivity | now rewrite IH]. Qed.

(** X13: the file name of the plot ignores the first character of both
    titles and does not tell a slash from a colon, so different titles
    can share a name; its length is that of the two titles without their
    first characters, plus six. *)
Theorem artifact_name_conflates_titles :
  (forall (c1 c1' c2 c2' : ascii) (g o : string),
     artifact_name (String c1 g) (String c2 o) = artifact_name (String c1' g) (String c2' o))
  /\ (forall g o : string,
        artifact_name (replace "/" ":" g) (replace "/" ":" o) = artifact_name g o)
  /\ (forall g o : string,
        String.length (artifact_name g o)
        = (Nat.pred (String.length g) + Nat.pred (String.length o) + 6)%nat).
Proof.
  split; [|split].
  - intros. reflexivity.
  - intros g o. unfold artifact_name. cbn [List.map].
    now rewrite !replace_idempotent.
  - intros g o. unfold artifact_name. cbn [List.map String.concat].
    rewrite !length_append, !length_drop_first, !length_replace. cbn. lia.
Qed.

(** ** Sections in title order *)

Lemma insert_by_title_sorted {M : Type} (h : Handle M) (l : list (Handle M)) :
  Behaviour.titles_ascend l -> Behaviour.titles_ascend (insert_by_title h l).
Proof.
  unfold Behaviour.titles_ascend.
  induction l as [|h' l IH]; intros Hs; cbn [insert_by_title].
  - repeat constructor.
  - destruct (String.leb (title h) (title h')) eqn:E.
    + constructor; [exact Hs | constructor; exact E].
    + inversion Hs as [|? ? Hl Hhd]; subst.
      constructor; [apply IH; exact Hl|].
      assert (E' : String.leb (title h') (title h) = true).
      { destruct (String.leb_total (title h) (title h')) as [H|H]; [congruence | exact H]. }
      destruct l as [|h'' l]; cbn [insert_by_title].
      * constructor. exact E'.
      * destruct (String.leb (title h) (title h'')); constructor; [exact E'|].
        inversion Hhd; subst. assumption.
Qed.

Lemma sorted_by_title_sorted {M : Type} (l : list (Handle M)) :
  Behaviour.titles_ascend (sorted_by_title l).
Proof.
  induction l as [|h l IH]; cbn [sorted_by_title fold_right].
  - constructor.
  - apply insert_by_title_sorted. exact IH.
Qed.

(** X14: [images_section] pushes nothing without galleries; otherwise it
    pushes one section with the first item of every gallery stream, the
    streams taken in ascending order of their titles. *)
Theorem images_section_widgets_in_title_order :
  forall (galleries : list (Handle Widget)) (title : string),
    Permutation (sorted_by_title galleries) galleries
    /\ Behaviour.titles_ascend (sorted_by_title galleries)
    /\ images_section galleries title
       = match galleries with
         | [] => ([], Done tt)
         | _ :: _ =>
           ([Push (mkSection title (pull_all (sorted_by_title galleries)))], Done tt)
         end.
Proof.
  intros galleries title. split; [apply sorted_by_title_perm|].
  split; [apply sorted_by_title_sorted|].
  rewrite images_section_run.
  destruct galleries as [|g gs]; [reflexivity|].
  destruct (sorted_by_title (g :: gs)) eqn:E; [|reflexivity].
  apply sorted_by_title_nil in E. discriminate E.
Qed.

(** X15: when there is a video stream, every video stream has a file and
    the titles are pairwise distinct, [video_section] pushes one section
    with one video widget per stream (its title, and the relative path
    of its first file), in ascending order of the titles. *)
Theorem video_section_widgets_in_title_order :
  forall (videos : list (Handle File)) (title : string),
    videos <> [] ->
    forallb Behaviour.has_item videos = true ->
    NoDup (List.map Marv.title videos) ->
    Behaviour.titles_ascend (sorted_by_title videos)
    /\ video_section videos title
       = ([Push (mkSection title
                   (List.map Behaviour.video_widget_of (sorted_by_title videos)))],
          Done tt).
Proof.
  intros videos title Hne Hall Hnd. split; [apply sorted_by_title_sorted|].
  unfold video_section.
  pose proof (sorted_by_title_perm videos) as Hp.
  destruct (sorted_by_title videos) as [|v vs] eqn:Hs.
  - apply sorted_by_title_nil in Hs. contradiction.
  - rewrite (forallb_perm _ _ _ (Permutation_sym Hp)) in Hall.
    destruct (video_widgets_all (v :: vs) Hall) as (ws & -> & Hw & Ht).
    gen_step.
    destruct (assert_unique_titles_spec (I := Section) (List.map fst ws))
      as [[_ ->] | [Hdup _]].
    + gen_step. rewrite <- Hw. destruct ws as [|w ws]; [discriminate Ht | reflexivity].
    + exfalso. apply Hdup. rewrite Ht.
      apply (Permutation_NoDup (l := List.map Marv.title videos)); [|exact Hnd].
      apply Permutation_map. symmetry. exact Hp.
Qed.

(** X16: when a video stream has no file, [video_section] ends with an
    [AttributeError] and pushes nothing, whatever the other streams
    hold. *)
Theorem video_section_missing_file :
  forall (videos : list (Handle File)) (title : string),
    videos <> [] ->
    forallb Behaviour.has_item videos = false ->
    video_section videos title = ([], Raised AttributeError).
Proof.
  intros videos title Hne Hmiss. unfold video_section.
  pose proof (sorted_by_title_perm videos) as Hp.
  destruct (sorted_by_title videos) as [|v vs] eqn:Hs.
  - apply sorted_by_title_nil in Hs. contradiction.
  - rewrite (forallb_perm _ _ _ (Permutation_sym Hp)) in Hmiss.
    rewrite (video_widgets_missing (v :: vs) Hmiss). reflexivity.
Qed.

Lemma topic_rows_spec (ts : list Topic) : forall idx : nat,
  List.map id (topic_rows idx ts) = seq idx (List.length ts)
  /\ List.map cells (topic_rows idx ts) = List.map Behaviour.topic_cells ts.
Proof.
  induction ts as [|t ts IH]; intros idx; cbn; [split; reflexivity|].
  destruct (IH (S idx)) as [-> ->]. split; reflexivity.
Qed.

(** X17: without bag metadata [topics_section] ends with an
    [AttributeError]; otherwise it pushes one section with one table of
    three columns and one row per topic, in order, numbered from 0, with
    name, message type and message count of the topic.  The dataset
    plays no role. *)
Theorem topics_section_rows :
  forall (D : Type) (bagmeta : Handle Bagmeta) (dataset : Handle D) (title : string),
    match msgs bagmeta with
    | [] => topics_section bagmeta dataset title = ([], Raised AttributeError)
    | b :: _ =>
      exists rows,
        topics_section bagmeta dataset title
        = ([Push (mkSection title
                    [Some (mkWidget None
                             (Table [mkColumn "Topic" None; mkColumn "Message type" None;
                                     mkColumn "Message count" (Some "right")] rows))])],
           Done tt)
        /\ List.map id rows = seq 0 (List.length (topics b))
        /\ List.map cells rows = List.map Behaviour.topic_cells (topics b)
    end.
Proof.
  intros D bagmeta dataset title. unfold topics_section, pull.
  destruct (msgs bagmeta) as [|b bs]; cbn [hd_error]; [reflexivity|].
  eexists. split; [reflexivity|]. apply topic_rows_spec.
Qed.

(** ** Compositions with the sections *)

(** X18: over the galleries of a list of image streams,
    [images_section] pushes a section exactly when there is an image
    stream, and its widgets are, up to order, one gallery per image
    stream, titled like the stream and listing the relative paths of its
    images, also for a stream without image. *)
Theorem images_section_one_gallery_per_stream :
  forall (image_streams : list (Handle File)) (title : string),
    images_section (Framework.foreach galleries image_streams) title
    = match image_streams with
      | [] => ([], Done tt)
      | _ :: _ =>
        ([Push (mkSection title
                  (pull_all (sorted_by_title (Framework.foreach galleries image_streams))))],
         Done tt)
      end
    /\ Permutation
         (pull_all (sorted_by_title (Framework.foreach galleries image_streams)))
         (List.map Behaviour.gallery_widget_of image_streams).
Proof.
  intros image_streams title.
  assert (Hf : Framework.foreach galleries image_streams
               = List.map (fun s => mkHandle (Marv.title s)
                                             [mkWidget (Some (Marv.title s))
                                                       (Gallery (List.map relpath (msgs s)))])
                          image_streams).
  { unfold Framework.foreach. induction image_streams as [|s rest IH]; [reflexivity|].
    cbn [flat_map List.map]. rewrite IH. reflexivity. }
  split.
  - rewrite images_section_run.
    destruct image_streams as [|s rest]; [reflexivity|].
    destruct (sorted_by_title _) eqn:E; [|reflexivity].
    apply sorted_by_title_nil in E. rewrite Hf in E. discriminate E.
  - unfold pull_all. rewrite (Permutation_map pull (sorted_by_title_perm _)).
    rewrite Hf, map_map. reflexivity.
Qed.

(** X19: when [gnss_plots] has an output stream, [gnss_section] on it
    pushes one section with one image widget: its title is the header of
    the plot, its source the relative path of the file of the plot. *)
Theorem gnss_section_shows_the_plot :
  forall (F : Type) (ops : Float64 F) (store : string -> File)
         (fromtimestamp : F -> option exn)
         (gps : list (Handle (Aggregate (Positions.Row F))))
         (orientation : list (Handle (Aggregate (Imus.Row F))))
         (plots : Handle File) (title : string),
    Framework.output_stream (gnss_plots store fromtimestamp gps orientation) = Some plots ->
    exists g gs,
      gps = g :: gs
      /\ gnss_section plots title
         = ([Push (mkSection title
                     [Some (mkWidget
                              (Some (plot_title (Marv.title g)
                                       (Expected.orientation_title_or_none orientation)))
                              (Image (relpath
                                        (store (artifact_name (Marv.title g)
                                                  (Expected.orientation_title_or_none
                                                     orientation))))))])],
            Done tt).
Proof.
  intros F ops store fromtimestamp gps orientation plots title Hout.
  destruct gps as [|[gtitle [|agg aggs]] gs]; [discriminate Hout .. |].
  exists (mkHandle gtitle (agg :: aggs)), gs. split; [reflexivity|].
  rewrite gnss_plots_run in Hout. rewrite gnss_section_run.
  cbn [Marv.title].
  destruct (values agg) as [|row rows];
    [|destruct (Behaviour.refused fromtimestamp
                  (Behaviour.plot_stamps orientation (row :: rows)))];
    destruct orientation as [|[otitle [|msg rest]] streams];
    try discriminate Hout;
    inversion Hout; subst plots; reflexivity.
Qed.

(** ** The summary widgets *)

Lemma basename_from_no_slash (p : string) : forall current : string,
  Expected.occurs "/" current = false ->
  Expected.occurs "/" (Summary.basename_from current p) = false.
Proof.
  induction p as [|c p IH]; intros current Hc; cbn [Summary.basename_from]; [exact Hc|].
  destruct (Ascii.eqb c "/") eqn:E.
  - apply IH. reflexivity.
  - apply IH. rewrite occurs_append, Hc. cbn. now rewrite E.
Qed.

Lemma format_index_injective (i j : nat) :
  Summary.format_index i = Summary.format_index j -> i = j.
Proof.
  unfold Summary.format_index. intros H.
  apply (f_equal NilEmpty.uint_of_string) in H. rewrite !NilEmpty.usu in H.
  inversion H as [H']. apply (f_equal Nat.of_uint) in H'.
  now rewrite !Unsigned.of_to in H'.
Qed.

Lemma bag_rows_ids (pairs : list (Summary.Bag.t * Summary.DatasetFile.t)) :
  forall idx : nat,
    List.map Summary.id (Summary.bag_rows idx pairs) = seq idx (List.length pairs).
Proof.
  induction pairs as [|[bag f] rest IH]; intros idx; cbn; [reflexivity|].
  now rewrite IH.
Qed.

Lemma bag_rows_sizes (pairs : list (Summary.Bag.t * Summary.DatasetFile.t)) :
  forall idx : nat,
    List.map Behaviour.row_size (Summary.bag_rows idx pairs)
    = List.map (fun p => Summary.DatasetFile.size (snd p)) pairs.
Proof.
  induction pairs as [|[bag f] rest IH]; intros idx; cbn; [reflexivity|].
  now rewrite IH.
Qed.

Lemma bag_rows_links (pairs : list (Summary.Bag.t * Summary.DatasetFile.t)) :
  forall idx : nat,
    Forall (fun r => exists name,
              Behaviour.row_link r = Some (Summary.format_index (Summary.id r), name)
              /\ Expected.occurs "/" name = false)
           (Summary.bag_rows idx pairs).
Proof.
  induction pairs as [|[bag f] rest IH]; intros idx; cbn [Summary.bag_rows];
    constructor; [|apply IH].
  eexists. split; [reflexivity|]. apply basename_from_no_slash. reflexivity.
Qed.

Lemma map_snd_combine {A B : Type} (l : list A) : forall l' : list B,
  List.map snd (combine l l') = firstn (List.length (combine l l')) l'.
Proof.
  induction l as [|a l IH]; intros [|b l']; cbn; try reflexivity.
  now rewrite IH.
Qed.

Lemma NoDup_map_through {A B C : Type} (f : A -> B) (g : A -> C) (l : list A) :
  (forall x y, In x l -> In y l -> g x = g y -> f x = f y) ->
  NoDup (List.map f l) -> NoDup (List.map g l).
Proof.
  induction l as [|a l IH]; intros Hfg Hnd; cbn; [constructor|].
  cbn in Hnd. inversion Hnd as [|? ? Hnin Hnd']; subst. constructor.
  - intros Hin. apply in_map_iff in Hin. destruct Hin as (x & Hx & Hxl).
    apply Hnin. apply in_map_iff. exists x. split; [|exact Hxl].
    apply Hfg; [right; exact Hxl | left; reflexivity | exact Hx].
  - apply IH; [|exact Hnd']. intros x y Hx Hy. apply Hfg; right; assumption.
Qed.

(** X20: with both inputs, [bagmeta_table] pushes one table with as many
    rows as the shorter of the bag list and the file list; the rows are
    numbered from 0, hold the sizes of the first files, have pairwise
    distinct links, each link being the decimal number of the row, and
    no link name holds a slash. *)
Theorem bagmeta_table_rows :
  forall (btitle dtitle : string) (b : Summary.Bagmeta.t) (bs : list Summary.Bagmeta.t)
         (d : Summary.Dataset) (ds : list Summary.Dataset),
  exists columns rows,
    Summary.bagmeta_table (mkHandle btitle (b :: bs)) (mkHandle dtitle (d :: ds))
    = ([Push (Summary.Table columns rows)], Done tt)
    /\ List.length rows
       = Nat.min (List.length (Summary.Bagmeta.bags b)) (List.length (Summary.files d))
    /\ List.map Summary.id rows = seq 0 (List.length rows)
    /\ List.map Behaviour.row_size rows
       = List.map Summary.DatasetFile.size (firstn (List.length rows) (Summary.files d))
    /\ NoDup (List.map Behaviour.row_link rows)
    /\ Forall (fun r => exists name,
                 Behaviour.row_link r = Some (Summary.format_index (Summary.id r), name)
                 /\ Expected.occurs "/" name = false) rows.
Proof.
  intros btitle dtitle b bs d ds.
  set (pairs := combine (Summary.Bagmeta.bags b) (Summary.files d)).
  assert (Hlen : List.length (Summary.bag_rows 0 pairs) = List.length pairs).
  { rewrite <- (length_map Summary.id), bag_rows_ids. apply length_seq. }
  eexists. exists (Summary.bag_rows 0 pairs).
  split; [reflexivity|].
  split; [rewrite Hlen; apply length_combine|].
  split; [rewrite Hlen; apply bag_rows_ids|].
  split.
  { rewrite bag_rows_sizes, Hlen. unfold pairs.
    rewrite <- map_snd_combine, map_map. reflexivity. }
  split; [|apply bag_rows_links].
  apply (NoDup_map_through Summary.id).
  - intros x y Hx Hy Hxy.
    pose proof (bag_rows_links pairs 0) as Hl. rewrite Forall_forall in Hl.
    destruct (Hl x Hx) as (nx & Ex & _). destruct (Hl y Hy) as (ny & Ey & _).
    rewrite Ex, Ey in Hxy. inversion Hxy as [[Hf Hn]].
    now apply format_index_injective.
  - rewrite bag_rows_ids. apply seq_NoDup.
Qed.

(** X21: when the dataset has no more files than the metadata has bags,
    the size entry of [summary_keyval] is the sum of the sizes in the
    rows of [bagmeta_table], and its files entry is the number of those
    rows. *)
Theorem summary_matches_bag_table :
  forall (btitle dtitle : string) (b : Summary.Bagmeta.t) (bs : list Summary.Bagmeta.t)
         (d : Summary.Dataset) (ds : list Summary.Dataset),
    (List.length (Summary.files d) <= List.length (Summary.Bagmeta.bags b))%nat ->
    exists w columns rows,
      Summary.summary_keyval (mkHandle dtitle (d :: ds)) (mkHandle btitle (b :: bs))
      = ([Push w], Done tt)
      /\ Summary.bagmeta_table (mkHandle btitle (b :: bs)) (mkHandle dtitle (d :: ds))
         = ([Push (Summary.Table columns rows)], Done tt)
      /\ Behaviour.item_value "size" w
         = Some (Summary.Uint64 (Summary.sum (List.map Behaviour.row_size rows)))
      /\ Behaviour.item_value "files" w
         = Some (Summary.Uint64 (Z.of_nat (List.length rows))).
Proof.
  intros btitle dtitle b bs d ds Hle.
  set (pairs := combine (Summary.Bagmeta.bags b) (Summary.files d)).
  assert (Hlen : List.length (Summary.bag_rows 0 pairs) = List.length (Summary.files d)).
  { rewrite <- (length_map Summary.id), bag_rows_ids, length_seq. unfold pairs.
    rewrite length_combine. lia. }
  eexists. eexists. exists (Summary.bag_rows 0 pairs).
  split; [reflexivity|]. split; [reflexivity|].
  split.
  - cbn. rewrite bag_rows_sizes. unfold pairs.
    rewrite <- (map_map snd Summary.DatasetFile.size), map_snd_combine.
    rewrite length_combine, Nat.min_r by exact Hle. now rewrite firstn_all.
  - cbn. now rewrite Hlen.
Qed.

(** X22: when the dataset or the bag metadata is missing,
    [summary_keyval] and [bagmeta_table] end with an [AttributeError]
    and push nothing. *)
Theorem summary_widgets_need_both_inputs :
  forall (dataset : Handle Summary.Dataset) (bagmeta : Handle Summary.Bagmeta.t),
    msgs dataset = [] \/ msgs bagmeta = [] ->
    Summary.summary_keyval dataset bagmeta = ([], Raised AttributeError)
    /\ Summary.bagmeta_table bagmeta dataset = ([], Raised AttributeError).
Proof.
  intros [dt dm] [bt bm] H. cbn [msgs] in H.
  unfold Summary.summary_keyval, Summary.bagmeta_table, pull. cbn [msgs].
  destruct dm as [|d ds], bm as [|b bs]; cbn; try (split; reflexivity).
  destruct H; discriminate.
Qed.

(** ** Instances *)

Lemma positions_rows_seen_from_first_fix_witness :
  positions _ (Sample.registry "sensor_msgs/NavSatFix" Sample.navsatfix_class)
            Sample.to_sec Sample.banded_projection Sample.gnss_stream
  = ([SetHeader "/gnss"; Log Warn "skipped %d erroneous messages" [ArgInt 1];
      Push (mkAggregate
              [Positions.mkRow 1 10 50 100 0 0 0 0%Z 2;
               Positions.mkRow 3 11 52 101 1000 2000 1 0%Z 2;
               Positions.mkRow 4 12 53 103 2000 3000 3 0%Z 2]%float)],
     Done tt).
Proof.
  rewrite (positions_rows_seen_from_first_fix
             float binary64 _
             (Sample.registry "sensor_msgs/NavSatFix" Sample.navsatfix_class)
             Sample.to_sec Sample.banded_projection Sample.gnss_stream
             Sample.navsatfix_class eq_refl).
  reflexivity.
Defined.

(** A valid fix and a skipped one come before the fix on which the
    projection raises: neither the row nor the count is seen. *)
Lemma positions_projection_failure_loses_all_witness :
  positions _ (Sample.registry "sensor_msgs/NavSatFix" Sample.navsatfix_class)
            Sample.to_sec Sample.banded_projection Cases.far_east_stream
  = ([SetHeader "/gnss"], Raised OutOfRangeError).
Proof.
  apply (positions_projection_failure_loses_all
           float binary64 _
           (Sample.registry "sensor_msgs/NavSatFix" Sample.navsatfix_class)
           Sample.to_sec Sample.banded_projection Cases.far_east_stream
           Sample.navsatfix_class (Sample.fix_at 3 30 100 5)).
  - reflexivity.
  - right. left. reflexivity.
  - reflexivity.
Defined.

Lemma positions_rows_are_numbers_witness :
  Forall (fun row => isnan (Positions.r_latitude row) = false
                     /\ isnan (Positions.r_longitude row) = false
                     /\ isnan (Positions.r_altitude row) = false)
         (values (mkAggregate [Sample.row_a])).
Proof.
  apply (positions_rows_are_numbers
           float binary64 _
           (Sample.registry "sensor_msgs/NavSatFix" Sample.navsatfix_class)
           Sample.to_sec Sample.banded_projection Cases.one_fix_stream).
  left. reflexivity.
Defined.

(** The third of a turn about the diagonal. *)
Lemma rot_preserves_length_witness :
  Behaviour.norm2 (dot (rot (Quaternion.mk (1 / 2) (1 / 2) (1 / 2) (1 / 2))%R) [1; 2; 3]%R)
  = Behaviour.norm2 [1; 2; 3]%R.
Proof.
  apply (rot_preserves_length (Quaternion.mk (1 / 2) (1 / 2) (1 / 2) (1 / 2))%R 1%R 2%R 3%R).
  unfold Reference.qnorm2. cbn [Quaternion.x Quaternion.y Quaternion.z Quaternion.w]. field.
Defined.

(** An eighth of a turn of yaw and of pitch, a quarter turn of roll. *)
Lemma yaw_angle_is_euler_yaw_witness :
  yaw_angle Ratan2 (Behaviour.euler_quaternion (PI / 4) (PI / 4) (PI / 2)) = (PI / 4)%R.
Proof.
  apply (yaw_angle_is_euler_yaw (PI / 4)%R (PI / 4)%R (PI / 2)%R).
  - pose proof PI_RGT_0. lra.
  - apply cos_gt_0; pose proof PI_RGT_0; lra.
Defined.

(** A position row stamped beyond the year 9999: the header is set and
    the file is made, and the conversion of the stamp ends the run. *)
Lemma gnss_plots_outcome_table_witness :
  gnss_plots Sample.store Sample.fromtimestamp Cases.late_gps Sample.imu_a
  = ([SetHeader "/gnss with /imu"; MakeFile "gnss__imu.jpg"], Raised ValueError).
Proof.
  pose proof (gnss_plots_outcome_table float binary64 Sample.store Sample.fromtimestamp
                Cases.late_gps Sample.imu_a) as [Hresult _].
  apply injective_projections; [reflexivity | exact Hresult].
Defined.

Lemma no_valid_fix_breaks_plot_witness :
  Framework.output_stream
    (positions _ (Sample.registry "sensor_msgs/NavSatFix" Sample.navsatfix_class)
               Sample.to_sec Sample.banded_projection Sample.nan_fix_stream)
  = Some (mkHandle "/gnss" [mkAggregate []])
  /\ result (gnss_plots Sample.store Sample.fromtimestamp Cases.empty_gps Sample.imu_a)
     = Raised IndexError
  /\ pushed (trace (gnss_plots Sample.store Sample.fromtimestamp Cases.empty_gps Sample.imu_a))
     = [].
Proof.
  apply (no_valid_fix_breaks_plot
           float binary64 _
           (Sample.registry "sensor_msgs/NavSatFix" Sample.navsatfix_class)
           Sample.to_sec Sample.banded_projection Sample.store Sample.fromtimestamp
           Sample.nan_fix_stream
           Sample.navsatfix_class Sample.imu_a); reflexivity.
Defined.

Lemma video_section_widgets_in_title_order_witness :
  video_section Sample.videos "Videos"
  = ([Push (mkSection "Videos"
              [Some (mkWidget (Some "/cam/left") (Video "left.webm"));
               Some (mkWidget (Some "/cam/right") (Video "right.webm"))])],
     Done tt).
Proof.
  apply (video_section_widgets_in_title_order Sample.videos "Videos").
  - discriminate.
  - reflexivity.
  - repeat constructor; cbn; intuition discriminate.
Defined.

Lemma video_section_missing_file_witness :
  video_section Cases.broken_videos "Videos" = ([], Raised AttributeError).
Proof.
  apply (video_section_missing_file Cases.broken_videos "Videos").
  - discriminate.
  - reflexivity.
Defined.

Lemma gnss_section_shows_the_plot_witness :
  gnss_section Cases.plot_stream "Position and Orientation"
  = ([Push (mkSection "Position and Orientation"
              [Some (mkWidget (Some "/gnss with /imu") (Image "gnss__imu.jpg"))])],
     Done tt).
Proof.
  destruct (gnss_section_shows_the_plot
              float binary64 Sample.store Sample.fromtimestamp Sample.gps_a Sample.imu_a
              Cases.plot_stream "Position and Orientation" eq_refl)
    as (g & gs & Hg & Hrun).
  inversion Hg; subst g gs. exact Hrun.
Defined.

Lemma summary_matches_bag_table_witness :
  exists columns rows,
    Summary.bagmeta_table (mkHandle "bagmeta" [Cases.bagmeta]) (mkHandle "dataset" [Cases.dataset])
    = ([Push (Summary.Table columns rows)], Done tt)
    /\ Behaviour.item_value "size" (hd (Summary.Keyval [])
         (pushed (trace (Summary.summary_keyval (mkHandle "dataset" [Cases.dataset])
                                                (mkHandle "bagmeta" [Cases.bagmeta])))))
       = Some (Summary.Uint64 42)
    /\ Summary.sum (List.map Behaviour.row_size rows) = 42%Z.
Proof.
  destruct (summary_matches_bag_table "bagmeta" "dataset" Cases.bagmeta [] Cases.dataset [])
    as (w & columns & rows & Hw & Ht & Hsize & Hfiles).
  - cbn. lia.
  - exists columns, rows. split; [exact Ht|]. rewrite Hw. cbn [trace pushed fst flat_map app hd].
    rewrite Hsize. inversion Ht; subst rows. split; reflexivity.
Defined.

Lemma summary_widgets_need_both_inputs_witness :
  Summary.summary_keyval (mkHandle "dataset" [Cases.dataset]) (mkHandle "bagmeta" [])
  = ([], Raised AttributeError)
  /\ Summary.bagmeta_table (mkHandle "bagmeta" []) (mkHandle "dataset" [Cases.dataset])
     = ([], Raised AttributeError).
Proof.
  apply (summary_widgets_need_both_inputs
           (mkHandle "dataset" [Cases.dataset]) (mkHandle "bagmeta" [])).
  right. reflexivity.
Defined.
